(** * pve-hardware-metrics: the measurement normalization pipeline

    A shallow embedding of [src/pve_hardware_metrics.py]: the three
    normalizers ([parse_sensors_data], [parse_smartctl_data],
    [parse_vm_disk_data]), the readers in front of them and the
    orchestrator [collect_measurements], followed by the properties the
    specification states about them.

    Conventions of the embedding.
    - Python values that travel through the pipeline are the ones
      [json.loads] builds: [value] below.  A Python [dict] is an association
      list in insertion order with unique keys ([dict_set] overwrites in
      place, as assignment to an existing key does).
    - An exception is a result: every function that can raise returns an
      [outcome], and a [for] loop is a fixpoint that stops at the first
      [Raise].  Logging has no effect on results and is left out.
    - Text is [string]: a sequence of 8-bit characters read as the code
      points U+0000 to U+00FF.  On that range [lower], [isspace] and the
      digit class of [re] are the ones of CPython.
    - A Python [float] is a binary64 number, [spec_float] with
      [prec = 53] and [emax = 1024]. *)

From Stdlib Require Import String Ascii List ZArith Lia Bool Arith.
From Stdlib Require Import Floats.SpecFloat DecimalString DecimalNat.
Import ListNotations.

Local Open Scope string_scope.
Local Open Scope Z_scope.

(** ** Exceptions and results *)

(** The exceptions that can leave a function of the module.  [Unsupported]
    is not a Python exception: it marks an input on which the embedding
    does not follow CPython (text beyond U+00FF produced by a [\u] escape,
    or the decoder's recursion budget). *)
Inductive exn : Type :=
  | JSONDecodeError
  | ValueError
  | KeyError
  | TypeError
  | AttributeError
  | IndexError
  | OverflowError
  | SystemExit
  | Unsupported.

Inductive outcome (A : Type) : Type :=
  | Ok (a : A)
  | Raise (e : exn).

Arguments Ok {A} a.
Arguments Raise {A} e.

Definition bind {A B : Type} (c : outcome A) (k : A -> outcome B) : outcome B :=
  match c with
  | Ok a => k a
  | Raise e => Raise e
  end.

Notation "x <- c ;; k" := (bind c (fun x => k))
  (at level 61, c at next level, right associativity).
Notation "' p <- c ;; k" := (bind c (fun x => let p := x in k))
  (at level 61, p pattern, c at next level, right associativity).

(** ** Python values *)

#[warnings="-register-all"]
Inductive value : Type :=
  | VNone
  | VBool (b : bool)
  | VInt (z : Z)
  | VFloat (f : spec_float)
  | VStr (s : string)
  | VList (l : list value)
  | VDict (d : list (string * value)).

Definition dict : Type := list (string * value).

Fixpoint dict_get (k : string) (d : dict) : option value :=
  match d with
  | [] => None
  | (k', v) :: rest => if String.eqb k' k then Some v else dict_get k rest
  end.

(** [d[k] = v] *)
Fixpoint dict_set (k : string) (v : value) (d : dict) : dict :=
  match d with
  | [] => [(k, v)]
  | (k', v') :: rest =>
      if String.eqb k' k then (k', v) :: rest else (k', v') :: dict_set k v rest
  end.

(** [v[k]] for a string key: [KeyError] on a dict without the key,
    [TypeError] on anything that is not a dict. *)
Definition py_getitem (v : value) (k : string) : outcome value :=
  match v with
  | VDict d => match dict_get k d with
               | Some x => Ok x
               | None => Raise KeyError
               end
  | _ => Raise TypeError
  end.

(** [v.get(k, default)] *)
Definition py_get (v : value) (k : string) (default : value) : outcome value :=
  match v with
  | VDict d => match dict_get k d with
               | Some x => Ok x
               | None => Ok default
               end
  | _ => Raise AttributeError
  end.

(** [v.items()] *)
Definition py_items (v : value) : outcome (list (string * value)) :=
  match v with
  | VDict d => Ok d
  | _ => Raise AttributeError
  end.

Fixpoint chars_of (s : string) : list value :=
  match s with
  | EmptyString => []
  | String c rest => VStr (String c EmptyString) :: chars_of rest
  end.

(** What [for x in v] iterates over. *)
Definition py_iter (v : value) : outcome (list value) :=
  match v with
  | VList l => Ok l
  | VDict d => Ok (map (fun kv => VStr (fst kv)) d)
  | VStr s => Ok (chars_of s)
  | _ => Raise TypeError
  end.

(** [v == s] for a string literal [s] *)
Definition py_eq_str (v : value) (s : string) : bool :=
  match v with
  | VStr t => String.eqb t s
  | _ => false
  end.

(** ** Floats *)

Definition prec : Z := 53.
Definition emax : Z := 1024.

(** [float(n)] for an [int]: the nearest binary64, ties to even;
    [OverflowError] when the integer is too large. *)
Definition int_to_float (n : Z) : outcome spec_float :=
  match binary_normalize prec emax n 0 false with
  | S754_infinity _ => Raise OverflowError
  | f => Ok f
  end.

(** The binary64 nearest to [m * 10^e] with sign [neg], for a decimal
    literal; overflow gives an infinity. *)
Definition decimal_to_float (neg : bool) (m : Z) (e : Z) : spec_float :=
  match m with
  | Z0 => S754_zero neg
  | Zneg _ => S754_nan
  | Zpos p =>
      if 0 <=? e then binary_round prec emax neg (Pos.mul p (Z.to_pos (10 ^ e))) 0
      else
        let '(q, e', l) := SFdiv_core_binary prec emax (Zpos p) 0 (10 ^ (- e)) 0 in
        binary_round_aux prec emax neg q e' l
  end.

(** [v == n] for an integer literal [n]: Python compares numbers across
    [int], [bool] and [float]. *)
Definition py_eq_int (v : value) (n : Z) : bool :=
  match v with
  | VInt z => Z.eqb z n
  | VBool b => Z.eqb (if b then 1 else 0) n
  | VFloat f => SFeqb f (binary_normalize prec emax n 0 false)
  | _ => false
  end.

(** The running total of [parse_vm_disk_data]: it starts as the [int] 0
    and stays a number. *)
Inductive num : Type :=
  | NInt (z : Z)
  | NFloat (f : spec_float).

(** [total += v] *)
Definition py_add (total : num) (v : value) : outcome num :=
  match total, v with
  | NInt a, VInt b => Ok (NInt (a + b))
  | NInt a, VBool b => Ok (NInt (a + (if b then 1 else 0)))
  | NInt a, VFloat g => f <- int_to_float a ;; Ok (NFloat (SFadd prec emax f g))
  | NFloat f, VInt b => g <- int_to_float b ;; Ok (NFloat (SFadd prec emax f g))
  | NFloat f, VBool b =>
      Ok (NFloat (SFadd prec emax f
                    (binary_normalize prec emax (if b then 1 else 0) 0 false)))
  | NFloat f, VFloat g => Ok (NFloat (SFadd prec emax f g))
  | _, _ => Raise TypeError
  end.

(** [float(total)] *)
Definition py_float (total : num) : outcome spec_float :=
  match total with
  | NInt z => int_to_float z
  | NFloat f => Ok f
  end.

(** ** Text *)

Local Open Scope char_scope.

Definition code (c : ascii) : N := N_of_ascii c.

(** [str.lower] on one character: A to Z, and on the Latin-1 page the
    capitals U+00C0 to U+00DE except the multiplication sign U+00D7. *)
Definition lower_char (c : ascii) : ascii :=
  let n := code c in
  if (((65 <=? n) && (n <=? 90))
      || ((192 <=? n) && (n <=? 222) && negb (n =? 215)))%N
  then ascii_of_N (n + 32) else c.

Fixpoint lower (s : string) : string :=
  match s with
  | EmptyString => EmptyString
  | String c rest => String (lower_char c) (lower rest)
  end.

(** [s.replace(old, new)] for one-character [old] and [new] *)
Fixpoint replace (old new : ascii) (s : string) : string :=
  match s with
  | EmptyString => EmptyString
  | String c rest =>
      String (if Ascii.eqb c old then new else c) (replace old new rest)
  end.

(** [s.startswith(p)] *)
Fixpoint startswith (p s : string) : bool :=
  match p, s with
  | EmptyString, _ => true
  | String a p', String b s' => Ascii.eqb a b && startswith p' s'
  | String _ _, EmptyString => false
  end.

(** [p in s] *)
Fixpoint contains (p s : string) : bool :=
  startswith p s
  || match s with
     | EmptyString => false
     | String _ rest => contains p rest
     end.

(** [s.split(sep)[0]] for a one-character separator *)
Fixpoint split_first (sep : ascii) (s : string) : string :=
  match s with
  | EmptyString => EmptyString
  | String c rest =>
      if Ascii.eqb c sep then EmptyString else String c (split_first sep rest)
  end.

(** [s.rfind(c)] for one character: the highest index of [c] in [s],
    or -1. *)
Fixpoint rfind (c : ascii) (s : string) : Z :=
  match s with
  | EmptyString => (-1)%Z
  | String a rest =>
      let r := rfind c rest in
      if (0 <=? r)%Z then (r + 1)%Z
      else if Ascii.eqb a c then 0%Z else (-1)%Z
  end.

Fixpoint drop (n : nat) (s : string) : string :=
  match n, s with
  | S k, String _ rest => drop k rest
  | _, _ => s
  end.

Fixpoint take (n : nat) (s : string) : string :=
  match n, s with
  | S k, String c rest => String c (take k rest)
  | _, _ => EmptyString
  end.

(** [s[:k]]: a negative [k] counts from the end. *)
Definition slice_to (k : Z) (s : string) : string :=
  let len := Z.of_nat (String.length s) in
  let stop := if (k <? 0)%Z then Z.max 0 (len + k) else Z.min k len in
  take (Z.to_nat stop) s.

(** [str(n)] for a natural number *)
Definition str_of_nat (n : nat) : string :=
  NilEmpty.string_of_uint (Nat.to_uint n).

(** [str.isspace] on one character of the range. *)
Definition isspace (c : ascii) : bool :=
  let n := code c in
  (((9 <=? n) && (n <=? 13)) || ((28 <=? n) && (n <=? 32))
   || (n =? 133) || (n =? 160))%N.

Fixpoint lstrip (s : string) : string :=
  match s with
  | EmptyString => EmptyString
  | String c rest => if isspace c then lstrip rest else s
  end.

Fixpoint rstrip (s : string) : string :=
  match s with
  | EmptyString => EmptyString
  | String c rest =>
      match rstrip rest with
      | EmptyString => if isspace c then EmptyString else String c EmptyString
      | r => String c r
      end
  end.

(** [s.strip()] *)
Definition strip (s : string) : string := rstrip (lstrip s).

(** [s.split(sep)] for a one-character separator: the pieces between
    separators, empty ones included. *)
Fixpoint split_on (sep : ascii) (s : string) : list string :=
  match s with
  | EmptyString => [EmptyString]
  | String c rest =>
      if Ascii.eqb c sep then EmptyString :: split_on sep rest
      else match split_on sep rest with
           | piece :: pieces => String c piece :: pieces
           | [] => [String c EmptyString]
           end
  end.

(** [s.split()]: the maximal runs of non-space characters.  [word] is the
    run being read. *)
Fixpoint split_ws_from (word : string) (s : string) : list string :=
  match s with
  | EmptyString =>
      match word with EmptyString => [] | _ => [word] end
  | String c rest =>
      if isspace c then
        match word with
        | EmptyString => split_ws_from EmptyString rest
        | _ => word :: split_ws_from EmptyString rest
        end
      else split_ws_from (word ++ String c EmptyString) rest
  end.

Definition split_ws (s : string) : list string := split_ws_from EmptyString s.

(** ** The two regular expressions *)

(** [\d] on the range: the ten ASCII digits. *)
Definition is_digit (c : ascii) : bool :=
  let n := code c in ((48 <=? n) && (n <=? 57))%N.

(** The longest prefix of digits, and what follows it. *)
Fixpoint span_digits (s : string) : string * string :=
  match s with
  | EmptyString => (EmptyString, EmptyString)
  | String c rest =>
      if is_digit c then
        let '(ds, tl) := span_digits rest in (String c ds, tl)
      else (EmptyString, s)
  end.

(** [re.search(r"(\d+)", s)]: group 1 of the leftmost match, which is the
    first maximal run of digits; [None] when [s] has no digit. *)
Fixpoint re_search_digits (s : string) : option string :=
  match s with
  | EmptyString => None
  | String c rest =>
      if is_digit c then Some (fst (span_digits s))
      else re_search_digits rest
  end.

(** Whether [temp\d+_] matches at the start of [s], and then how many
    characters the match takes.  [\d+] is greedy and the character after
    a maximal run of digits is not a digit, so backtracking never finds a
    shorter match. *)
Definition match_temp (s : string) : option nat :=
  if startswith "temp" s then
    let '(ds, tl) := span_digits (drop 4 s) in
    match ds, tl with
    | String _ _, String "_" _ => Some (4 + String.length ds + 1)%nat
    | _, _ => None
    end
  else None.

(** [re.sub(r"temp\d+_", "temp_", s)]: scan from the left; at a match emit
    [temp_] and resume after it, otherwise copy one character.  [skip] is
    the number of characters still covered by the last match. *)
Fixpoint re_sub_temp_from (skip : nat) (s : string) : string :=
  match s with
  | EmptyString => EmptyString
  | String c rest =>
      match skip with
      | S k => re_sub_temp_from k rest
      | O =>
          match match_temp s with
          | Some n => "temp_" ++ re_sub_temp_from (n - 1) rest
          | None => String c (re_sub_temp_from 0 rest)
          end
      end
  end%string.

Definition re_sub_temp (s : string) : string := re_sub_temp_from 0 s.

Fixpoint digits_value (acc : Z) (s : string) : Z :=
  match s with
  | EmptyString => acc
  | String c rest => digits_value (10 * acc + Z.of_N (code c - 48)) rest
  end.

(** [float(s)] for a string of decimal digits: the nearest binary64, ties
    to even, an infinity when the number is too large. *)
Definition float_of_digits (s : string) : spec_float :=
  binary_normalize prec emax (digits_value 0 s) 0 false.


(** ** [json.loads]

    The decoder of CPython's [json] module on the 8-bit range, written as
    the scanner is: [scanstring] in strict mode, the number grammar
    (an optional minus, then 0 or a digit run not starting with 0, then an
    optional fraction and an optional exponent), the literals [null],
    [true], [false], [NaN], [Infinity] and [-Infinity], arrays and objects
    (a repeated key keeps its first position and its last value).  The
    interpreter's recursion limit is not modelled. *)

Definition dquote : ascii := "034".
Definition backslash : ascii := "092".

Definition is_json_ws (c : ascii) : bool :=
  let n := code c in ((n =? 32) || (n =? 9) || (n =? 10) || (n =? 13))%N.

Fixpoint skip_ws (s : string) : string :=
  match s with
  | EmptyString => EmptyString
  | String c rest => if is_json_ws c then skip_ws rest else s
  end.

Definition hex_value (c : ascii) : option N :=
  let n := code c in
  if ((48 <=? n) && (n <=? 57))%N then Some (n - 48)%N
  else if ((97 <=? n) && (n <=? 102))%N then Some (n - 87)%N
  else if ((65 <=? n) && (n <=? 70))%N then Some (n - 55)%N
  else None.

Definition hex4 (a b c d : ascii) : option N :=
  match hex_value a, hex_value b, hex_value c, hex_value d with
  | Some x, Some y, Some z, Some w => Some (((x * 16 + y) * 16 + z) * 16 + w)%N
  | _, _, _, _ => None
  end.

Definition unescape (c : ascii) : option ascii :=
  if Ascii.eqb c dquote then Some dquote
  else if Ascii.eqb c backslash then Some backslash
  else if Ascii.eqb c "/" then Some "/"
  else if Ascii.eqb c "b" then Some "008"
  else if Ascii.eqb c "f" then Some "012"
  else if Ascii.eqb c "n" then Some "010"
  else if Ascii.eqb c "r" then Some "013"
  else if Ascii.eqb c "t" then Some "009"
  else None.

(** The string whose opening quote has been read: its content and the
    text after the closing quote. *)
Fixpoint scanstring (s : string) : outcome (string * string) :=
  match s with
  | EmptyString => Raise JSONDecodeError
  | String c rest =>
      if Ascii.eqb c dquote then Ok (EmptyString, rest)
      else if Ascii.eqb c backslash then
        match rest with
        | EmptyString => Raise JSONDecodeError
        | String "u" (String h1 (String h2 (String h3 (String h4 tl)))) =>
            match hex4 h1 h2 h3 h4 with
            | Some n =>
                if (n <? 256)%N then
                  '(str, r) <- scanstring tl ;; Ok (String (ascii_of_N n) str, r)
                else Raise Unsupported
            | None => Raise JSONDecodeError
            end
        | String e rest' =>
            match unescape e with
            | Some ch => '(str, r) <- scanstring rest' ;; Ok (String ch str, r)
            | None => Raise JSONDecodeError
            end
        end
      else if (code c <? 32)%N then Raise JSONDecodeError
      else '(str, r) <- scanstring rest ;; Ok (String c str, r)
  end.

(** [int(digits)] is refused beyond 4300 digits. *)
Definition max_str_digits : nat := 4300.

(** The exponent part at the head of [s], if there is one: its value and
    the text after it. *)
Definition scan_exponent (s : string) : option (Z * string) :=
  match s with
  | String c rest =>
      if Ascii.eqb c "e" || Ascii.eqb c "E" then
        let '(neg, rest') :=
          match rest with
          | String "-" r => (true, r)
          | String "+" r => (false, r)
          | _ => (false, rest)
          end in
        match span_digits rest' with
        | (EmptyString, _) => None
        | (ds, tl) =>
            let e := digits_value 0 ds in
            Some ((if neg then - e else e)%Z, tl)
        end
      else None
  | EmptyString => None
  end.

(** The number at the head of [s], if one starts there. *)
Definition scan_number (s : string) : option (outcome value * string) :=
  let '(neg, s1) :=
    match s with
    | String "-" r => (true, r)
    | _ => (false, s)
    end in
  let int_part :=
    match s1 with
    | String "0" r => Some ("0"%string, r)
    | String c _ => if is_digit c then Some (span_digits s1) else None
    | EmptyString => None
    end in
  match int_part with
  | None => None
  | Some (ds, s2) =>
      let '(frac, s3) :=
        match s2 with
        | String "." (String d r) =>
            if is_digit d then
              let '(fs, tl) := span_digits (String d r) in (Some fs, tl)
            else (None, s2)
        | _ => (None, s2)
        end in
      let '(expo, s4) :=
        match scan_exponent s3 with
        | Some (e, tl) => (Some e, tl)
        | None => (None, s3)
        end in
      match frac, expo with
      | None, None =>
          if (max_str_digits <? String.length ds)%nat then
            Some (Raise ValueError, s4)
          else
            let n := digits_value 0 ds in
            Some (Ok (VInt (if neg then - n else n)%Z), s4)
      | _, _ =>
          let fs := match frac with Some fs => fs | None => EmptyString end in
          let e := match expo with Some e => e | None => 0%Z end in
          Some (Ok (VFloat (decimal_to_float neg (digits_value 0 (ds ++ fs))
                               (e - Z.of_nat (String.length fs)))), s4)
      end
  end.

(** [scan_once] reads one value at the head of [s]; [scan_items] the
    elements of an array after its first bracket and [scan_members] the
    members of an object after its first brace, both up to the closing
    one.  [fuel] bounds the depth of calls and [Unsupported] reports that
    it ran out. *)
Fixpoint scan_once (fuel : nat) (s : string) {struct fuel}
  : outcome (value * string) :=
  match fuel with
  | O => Raise Unsupported
  | S fuel' =>
      match s with
      | EmptyString => Raise JSONDecodeError
      | String c rest =>
          if Ascii.eqb c dquote then
            '(str, r) <- scanstring rest ;; Ok (VStr str, r)
          else if Ascii.eqb c "{" then
            match skip_ws rest with
            | String "}" r => Ok (VDict [], r)
            | s' => scan_members fuel' s' []
            end
          else if Ascii.eqb c "[" then
            match skip_ws rest with
            | String "]" r => Ok (VList [], r)
            | s' => scan_items fuel' s' []
            end
          else if startswith "null" s then Ok (VNone, drop 4 s)
          else if startswith "true" s then Ok (VBool true, drop 4 s)
          else if startswith "false" s then Ok (VBool false, drop 5 s)
          else if startswith "NaN" s then Ok (VFloat S754_nan, drop 3 s)
          else if startswith "Infinity" s then
            Ok (VFloat (S754_infinity false), drop 8 s)
          else if startswith "-Infinity" s then
            Ok (VFloat (S754_infinity true), drop 9 s)
          else
            match scan_number s with
            | Some (v, r) => x <- v ;; Ok (x, r)
            | None => Raise JSONDecodeError
            end
      end
  end

with scan_items (fuel : nat) (s : string) (acc : list value) {struct fuel}
  : outcome (value * string) :=
  match fuel with
  | O => Raise Unsupported
  | S fuel' =>
      '(v, r) <- scan_once fuel' s ;;
      match skip_ws r with
      | String "]" r' => Ok (VList (rev (v :: acc)), r')
      | String "," r' => scan_items fuel' (skip_ws r') (v :: acc)
      | _ => Raise JSONDecodeError
      end
  end

with scan_members (fuel : nat) (s : string) (acc : dict) {struct fuel}
  : outcome (value * string) :=
  match fuel with
  | O => Raise Unsupported
  | S fuel' =>
      match s with
      | String c r =>
          if Ascii.eqb c dquote then
            '(k, r1) <- scanstring r ;;
            match skip_ws r1 with
            | String ":" r2 =>
                '(v, r3) <- scan_once fuel' (skip_ws r2) ;;
                let acc' := dict_set k v acc in
                match skip_ws r3 with
                | String "}" r4 => Ok (VDict acc', r4)
                | String "," r4 => scan_members fuel' (skip_ws r4) acc'
                | _ => Raise JSONDecodeError
                end
            | _ => Raise JSONDecodeError
            end
          else Raise JSONDecodeError
      | EmptyString => Raise JSONDecodeError
      end
  end.

(** [json.loads(s)]: one value, with white space around it and nothing
    else. *)
Definition json_decode (s : string) : outcome value :=
  '(v, r) <- scan_once (2 * String.length s + 2) (skip_ws s) ;;
  match skip_ws r with
  | EmptyString => Ok v
  | String _ _ => Raise JSONDecodeError
  end.

(** JSON text is written below with ['] where the text has the double
    quote. *)
Definition json_text (s : string) : string := replace "'" dquote s.

Local Close Scope char_scope.

(** ** The collector *)

(** One output record: the dict with the keys [measurement], [tags] and
    [fields]. *)
Record Measurement : Type := mkMeasurement {
  measurement : string;
  tags : dict;
  fields : dict
}.

(** Constants for SMART attribute IDs *)
Definition TEMPERATURE_CELSIUS_ID : Z := 194.
Definition PERCENT_LIFETIME_REMAIN_ID : Z := 202.

(** *** Sensors *)

(** The key under which reading [field] of group [key] is stored. *)
Definition field_key (key field : string) : string :=
  let composed :=
    if String.eqb key "temp1" && contains "temp1" (lower field) then lower field
    else replace " " "_" (lower key) ++ "_" ++ lower field in
  re_sub_temp composed.

(** [for field, field_value in value.items()] *)
Fixpoint group_fields (key : string) (items : list (string * value))
    (fields : dict) : dict :=
  match items with
  | [] => fields
  | (field, field_value) :: rest =>
      group_fields key rest (dict_set (field_key key field) field_value fields)
  end.

(** [for key, value in details.items()] *)
Fixpoint chip_fields (details : list (string * value)) (fields : dict)
  : outcome dict :=
  match details with
  | [] => Ok fields
  | (key, value) :: rest =>
      if String.eqb key "Adapter" then chip_fields rest fields
      else
        items <- py_items value ;;
        chip_fields rest (group_fields key items fields)
  end.

(** The body of [for sensor, details in sensors_data.items()] *)
Definition parse_chip (host sensor : string) (details : value)
  : outcome Measurement :=
  adapter <- py_getitem details "Adapter" ;;
  groups <- py_items details ;;
  fields <- chip_fields groups [] ;;
  Ok {| measurement := "sensors." ++ split_first "-" sensor;
        tags := [("host", VStr host); ("adapter", adapter)];
        fields := fields |}.

Fixpoint parse_chips (host : string) (chips : list (string * value))
    (data : list Measurement) : outcome (list Measurement) :=
  match chips with
  | [] => Ok data
  | (sensor, details) :: rest =>
      m <- parse_chip host sensor details ;;
      parse_chips host rest (data ++ [m])%list
  end.

Definition parse_sensors_data (host : string) (sensors_data : value)
  : outcome (list Measurement) :=
  chips <- py_items sensors_data ;;
  parse_chips host chips [].

(** *** SMART *)

(** [for i, item in enumerate(value): stats[f"{key}_{i + 1}"] = item],
    from index [i] on *)
Fixpoint explode (key : string) (i : nat) (items : list value) (stats : dict)
  : dict :=
  match items with
  | [] => stats
  | item :: rest =>
      explode key (S i) rest
        (dict_set (key ++ "_" ++ str_of_nat (i + 1)) item stats)
  end.

(** The body of [for key, value in nvme_data.items()] *)
Definition nvme_step (stats : dict) (key : string) (value : value) : dict :=
  match value with
  | VList items => explode key 0 items stats
  | _ => dict_set key value stats
  end.

Fixpoint nvme_stats (nvme_data : list (string * value)) (stats : dict) : dict :=
  match nvme_data with
  | [] => stats
  | (key, value) :: rest => nvme_stats rest (nvme_step stats key value)
  end.

Definition parse_nvme_smartctl_data (host disk : string) (data : value)
  : outcome Measurement :=
  nvme_data <- py_get data "nvme_smart_health_information_log" (VDict []) ;;
  items <- py_items nvme_data ;;
  Ok {| measurement := "smartctl." ++ disk;
        tags := [("host", VStr host)];
        fields := nvme_stats items [] |}.

(** [attribute["name"].lower().replace("-", "_")] *)
Definition attribute_name_of (name : value) : outcome string :=
  match name with
  | VStr s => Ok (replace "-" "_" (lower s))
  | _ => Raise AttributeError
  end.

(** [re.search(r"(\d+)", raw_string)], which wants a string *)
Definition search_raw_string (raw_string : value) : outcome (option string) :=
  match raw_string with
  | VStr s => Ok (re_search_digits s)
  | _ => Raise TypeError
  end.

(** The body of [for attribute in sata_data] *)
Definition sata_step (stats : dict) (attribute : value) : outcome dict :=
  attribute_id <- py_getitem attribute "id" ;;
  name <- py_getitem attribute "name" ;;
  attribute_name <- attribute_name_of name ;;
  raw <- py_getitem attribute "raw" ;;
  raw_value <- py_getitem raw "value" ;;
  raw' <- py_getitem attribute "raw" ;;
  raw_string <- py_getitem raw' "string" ;;
  normalized_value <- py_getitem attribute "value" ;;
  let otherwise :=
    if py_eq_int attribute_id PERCENT_LIFETIME_REMAIN_ID
    then dict_set attribute_name normalized_value stats
    else dict_set attribute_name raw_value stats in
  if py_eq_int attribute_id TEMPERATURE_CELSIUS_ID then
    found <- search_raw_string raw_string ;;
    match found with
    | Some group1 =>
        Ok (dict_set attribute_name (VFloat (float_of_digits group1)) stats)
    | None => Ok otherwise
    end
  else Ok otherwise.

Fixpoint sata_stats (sata_data : list value) (stats : dict) : outcome dict :=
  match sata_data with
  | [] => Ok stats
  | attribute :: rest =>
      stats' <- sata_step stats attribute ;;
      sata_stats rest stats'
  end.

Definition parse_sata_smartctl_data (host disk : string) (data : value)
  : outcome Measurement :=
  attributes <- py_get data "ata_smart_attributes" (VDict []) ;;
  sata_data <- py_get attributes "table" (VList []) ;;
  table <- py_iter sata_data ;;
  stats <- sata_stats table [] ;;
  Ok {| measurement := "smartctl." ++ disk;
        tags := [("host", VStr host)];
        fields := stats |}.

Definition parse_smartctl_data (host disk : string) (data : value)
  : outcome Measurement :=
  if startswith "nvme" disk then parse_nvme_smartctl_data host disk data
  else parse_sata_smartctl_data host disk data.

(** *** VM disks *)

(** The body of [for fs in fsinfo] *)
Definition fs_step (total_used : num) (fs : value) : outcome num :=
  name <- py_getitem fs "name" ;;
  if py_eq_str name "sda1" then
    mountpoint <- py_getitem fs "mountpoint" ;;
    if py_eq_str mountpoint "/" then
      used <- py_getitem fs "used-bytes" ;;
      py_add total_used used
    else Ok total_used
  else Ok total_used.

Fixpoint fs_total (fsinfo : list value) (total_used : num) : outcome num :=
  match fsinfo with
  | [] => Ok total_used
  | fs :: rest =>
      total_used' <- fs_step total_used fs ;;
      fs_total rest total_used'
  end.

(** [qm list], from its second line on: the lines that mention
    [running] *)
Fixpoint running_vms (vm_list : list string) : outcome (list (string * string)) :=
  match vm_list with
  | [] => Ok []
  | vm_info :: rest =>
      if contains "running" vm_info then
        match split_ws vm_info with
        | vm_id :: vm_name :: _ =>
            vms <- running_vms rest ;;
            Ok ((vm_id, vm_name) :: vms)
        | _ => Raise IndexError
        end
      else running_vms rest
  end.

(** [disk[: disk.rfind("n")]] for an NVMe disk, [disk] otherwise *)
Definition disk_name (disk : string) : string :=
  if startswith "nvme" disk then slice_to (rfind "n" disk) disk else disk.

(** [device["name"] for device in ... if device["type"] == "disk"] *)
Fixpoint disk_names (devices : list value) : outcome (list value) :=
  match devices with
  | [] => Ok []
  | device :: rest =>
      type <- py_getitem device "type" ;;
      if py_eq_str type "disk" then
        name <- py_getitem device "name" ;;
        names <- disk_names rest ;;
        Ok (name :: names)
      else disk_names rest
  end.

Section Collector.

(** The two things the module takes from outside: [json.loads], and
    [subprocess.run(command, capture_output=True, text=True, check=True)]
    as the standard output of [command], or [None] when the command
    exits with an error ([CalledProcessError]). *)
Variable json_loads : string -> outcome value.
Variable subprocess_run : list string -> option string.

Definition run_command (command : list string) : outcome string :=
  match subprocess_run command with
  | Some stdout => Ok stdout
  | None => Raise SystemExit
  end.

Definition get_sensors_data : outcome value :=
  stdout <- run_command ["/usr/bin/sensors"; "-j"] ;;
  match json_loads stdout with
  | Raise JSONDecodeError => Ok (VDict [])
  | parsed_data => parsed_data
  end.

Definition get_disks : outcome (list value) :=
  stdout <- run_command ["/usr/bin/lsblk"; "-J"; "-o"; "NAME,TYPE"] ;;
  match json_loads stdout with
  | Raise JSONDecodeError => Raise SystemExit
  | Raise e => Raise e
  | Ok result =>
      blockdevices <- py_getitem result "blockdevices" ;;
      devices <- py_iter blockdevices ;;
      disk_names devices
  end.

Definition get_smartctl_data (disk : string) : outcome value :=
  stdout <- run_command ["/usr/sbin/smartctl"; "-A"; "-j"; "/dev/" ++ disk] ;;
  match json_loads stdout with
  | Raise JSONDecodeError => Ok (VDict [])
  | parsed_data => parsed_data
  end.

Definition get_vms : outcome (list (string * string)) :=
  result <- run_command ["/usr/sbin/qm"; "list"] ;;
  running_vms (tl (split_on "010" (strip result))).

Definition get_vm_disk_data (vm_id : string) : outcome string :=
  run_command ["/usr/sbin/qm"; "agent"; vm_id; "get-fsinfo"].

Definition parse_vm_disk_data (host vm_id vm_name data : string)
  : outcome Measurement :=
  fsinfo <- json_loads data ;;
  entries <- py_iter fsinfo ;;
  total_used <- fs_total entries (NInt 0) ;;
  disk <- py_float total_used ;;
  Ok {| measurement := "system";
        tags := [("host", VStr vm_name); ("nodename", VStr host);
                 ("object", VStr "qemu"); ("vmid", VStr vm_id)];
        fields := [("disk", VFloat disk)] |}.

(** The body of [for disk in get_disks()] *)
Definition smart_step (host : string) (disk : value)
    (measurements : list Measurement) : outcome (list Measurement) :=
  match disk with
  | VStr disk =>
      let disk_name := disk_name disk in
      data <- get_smartctl_data disk_name ;;
      m <- parse_smartctl_data host disk_name data ;;
      Ok (measurements ++ [m])%list
  | _ => Raise AttributeError
  end.

Fixpoint smart_loop (host : string) (disks : list value)
    (measurements : list Measurement) : outcome (list Measurement) :=
  match disks with
  | [] => Ok measurements
  | disk :: rest =>
      measurements' <- smart_step host disk measurements ;;
      smart_loop host rest measurements'
  end.

(** The body of [for vm_id, vm_name in get_vms()] *)
Definition vm_step (host : string) (vm : string * string)
    (measurements : list Measurement) : outcome (list Measurement) :=
  let '(vm_id, vm_name) := vm in
  data <- get_vm_disk_data vm_id ;;
  m <- parse_vm_disk_data host vm_id vm_name data ;;
  Ok (measurements ++ [m])%list.

Fixpoint vm_loop (host : string) (vms : list (string * string))
    (measurements : list Measurement) : outcome (list Measurement) :=
  match vms with
  | [] => Ok measurements
  | vm :: rest =>
      measurements' <- vm_step host vm measurements ;;
      vm_loop host rest measurements'
  end.

Definition collect_measurements (host : string) (vm_disk : bool)
  : outcome (list Measurement) :=
  sensors_data <- get_sensors_data ;;
  measurements <- parse_sensors_data host sensors_data ;;
  disks <- get_disks ;;
  measurements <- smart_loop host disks measurements ;;
  if vm_disk then
    vms <- get_vms ;;
    vm_loop host vms measurements
  else Ok measurements.

End Collector.

Local Close Scope char_scope.

(** * Properties *)

(** ** Vocabulary of the statements *)




(** [P] holds of what [r] returns, when it returns. *)
Definition returns {A : Type} (P : A -> Prop) (r : outcome A) : Prop :=
  match r with
  | Ok a => P a
  | Raise _ => True
  end.

Fixpoint all_chars (p : ascii -> bool) (s : string) : bool :=
  match s with
  | EmptyString => true
  | String c rest => p c && all_chars p rest
  end.

Definition all_digits (s : string) : bool := all_chars is_digit s.
Definition no_digit (s : string) : bool := all_chars (fun c => negb (is_digit c)) s.

(** [s] does not go on with a digit. *)
Definition stops_digits (s : string) : bool :=
  match s with
  | EmptyString => true
  | String c _ => negb (is_digit c)
  end.

(** The pattern [temp<digits>_] occurs at the start of [s]. *)
Definition temp_index_at_head (s : string) : Prop :=
  exists ds tl, ds <> EmptyString /\ all_digits ds = true
                /\ s = "temp" ++ ds ++ "_" ++ tl.


(** The float [f] is exactly the integer [z]. *)
Definition float_is_integer (f : spec_float) (z : Z) : bool :=
  match f with
  | S754_zero _ => Z.eqb z 0
  | S754_finite s m e =>
      Z.eqb ((if s then Zneg m else Zpos m) * 2 ^ Z.max e 0) (z * 2 ^ Z.max (- e) 0)
  | _ => false
  end.









(** The measurement is the [system] record of the VM [vm_name] with
    id [vm_id]. *)
Definition is_vm_measurement (vm_name vm_id : string) (m : Measurement) : bool :=
  String.eqb (measurement m) "system"
  && match dict_get "host" (tags m), dict_get "vmid" (tags m) with
     | Some h, Some i => py_eq_str h vm_name && py_eq_str i vm_id
     | _, _ => false
     end.

(** ** Sample hosts *)

Fixpoint command_eqb (a b : list string) : bool :=
  match a, b with
  | [], [] => true
  | x :: a', y :: b' => String.eqb x y && command_eqb a' b'
  | _, _ => false
  end.

Definition newline : string := String "010" EmptyString.

(** [qm list] with one running VM, id 100, named [vm_name] *)
Definition qm_list_text : string :=
  "VMID NAME STATUS" ++ newline ++ "100 vm_name running".

(** [lsblk] listing one disk called [name] *)
Definition lsblk_text (name : string) : string :=
  json_text "{'blockdevices': [{'name': '" ++ name
  ++ json_text "', 'type': 'disk'}]}".

(** A host on which [sensors] prints [sensors], [lsblk] prints [lsblk],
    [smartctl] prints [smartctl] for the device [/dev/<device>] and fails
    for any other, and the agent of VM 100 prints [fsinfo]. *)
Definition sample_host (sensors lsblk device smartctl fsinfo : string)
    (command : list string) : option string :=
  if command_eqb command ["/usr/bin/sensors"; "-j"] then Some sensors
  else if command_eqb command ["/usr/bin/lsblk"; "-J"; "-o"; "NAME,TYPE"]
  then Some lsblk
  else if command_eqb command
            ["/usr/sbin/smartctl"; "-A"; "-j"; "/dev/" ++ device]
  then Some smartctl
  else if command_eqb command ["/usr/sbin/qm"; "list"] then Some qm_list_text
  else if command_eqb command ["/usr/sbin/qm"; "agent"; "100"; "get-fsinfo"]
  then Some fsinfo
  else None.

(** A host on which every tool prints [invalid json]; its one disk is
    [sda]. *)
Definition garbled_host : list string -> option string :=
  sample_host "invalid json" (lsblk_text "sda") "sda"
    "invalid json" "invalid json".

(** The [system] measurement of a VM whose summed usage is zero. *)
Definition vm_measurement_zero (host vm_id vm_name : string) : Measurement :=
  {| measurement := "system";
     tags := [("host", VStr vm_name); ("nodename", VStr host);
              ("object", VStr "qemu"); ("vmid", VStr vm_id)];
     fields := [("disk", VFloat (S754_zero false))] |}.

(** The SMART measurement of a disk without attributes. *)
Definition smart_measurement_empty (host disk : string) : Measurement :=
  {| measurement := "smartctl." ++ disk;
     tags := [("host", VStr host)];
     fields := [] |}.

(** The SATA attribute record of the test suite for id 194, with raw
    display string [raw_string] and raw value [raw_value]. *)
Definition temperature_record (raw_value : Z) (raw_string : string) : value :=
  VDict [("id", VInt 194); ("name", VStr "Temperature_Celsius");
         ("value", VInt 59);
         ("raw", VDict [("value", VInt raw_value); ("string", VStr raw_string)])].

Definition sata_table (records : list value) : value :=
  VDict [("ata_smart_attributes", VDict [("table", VList records)])].

(** A sensor tree with one chip, holding its adapter and one group with
    one reading. *)
Definition one_reading (sensor group label : string) (adapter v : value)
  : value :=
  VDict [(sensor, VDict [("Adapter", adapter); (group, VDict [(label, v)])])].

(** ** The float of an integer *)






(** ** Vocabulary of the further properties *)

(** [str.lower] leaves the character as it is. *)
Definition lower_fixed (c : ascii) : bool := Ascii.eqb (lower_char c) c.

Definition lower_case (s : string) : bool := all_chars lower_fixed s.

Definition no_hyphen (s : string) : bool :=
  all_chars (fun c => negb (Ascii.eqb c "-")) s.

Definition no_space (s : string) : bool :=
  all_chars (fun c => negb (isspace c)) s.

Definition keys (d : dict) : list string := map fst d.

(** A filesystem record that has the three keys the VM normalizer may
    read, with an integer under [used-bytes]. *)
Definition fs_complete (fs : value) : bool :=
  match py_getitem fs "name", py_getitem fs "mountpoint",
        py_getitem fs "used-bytes" with
  | Ok _, Ok _, Ok (VInt _) => true
  | _, _, _ => false
  end.

(** What a record counts for: its [used-bytes] when it is [sda1] mounted
    on [/], nothing otherwise. *)
Definition root_used_bytes (fs : value) : Z :=
  match py_getitem fs "name", py_getitem fs "mountpoint",
        py_getitem fs "used-bytes" with
  | Ok name, Ok mountpoint, Ok (VInt used) =>
      if py_eq_str name "sda1" && py_eq_str mountpoint "/" then used else 0
  | _, _, _ => 0
  end.

Definition sum_root_used_bytes (fsinfo : list value) : Z :=
  fold_right (fun fs acc => root_used_bytes fs + acc) 0 fsinfo.

(** A block device of [lsblk] that has a [type], and a [name] too. *)
Definition device_complete (device : value) : bool :=
  match py_getitem device "type", py_getitem device "name" with
  | Ok _, Ok _ => true
  | _, _ => false
  end.

Definition device_is_disk (device : value) : bool :=
  match py_getitem device "type" with
  | Ok type => py_eq_str type "disk"
  | Raise _ => false
  end.

Definition device_name (device : value) : value :=
  match py_getitem device "name" with
  | Ok name => name
  | Raise _ => VNone
  end.

(** The two filesystems of the test suite, the boot partition and the
    root, as the agent prints them and as [json.loads] reads them. *)
Definition test_fsinfo_text : string :=
  json_text "[{'mountpoint': '/boot/efi', 'name': 'sda15', 'used-bytes': 12124160}, {'mountpoint': '/', 'name': 'sda1', 'used-bytes': 2426138624}]".

Definition test_fsinfo : list value :=
  [VDict [("mountpoint", VStr "/boot/efi"); ("name", VStr "sda15");
          ("used-bytes", VInt 12124160)];
   VDict [("mountpoint", VStr "/"); ("name", VStr "sda1");
          ("used-bytes", VInt 2426138624)]].

(** A host like [sample_host], on which the agent of VM 100 does not
    answer. *)
Definition agentless_host (command : list string) : option string :=
  if command_eqb command ["/usr/sbin/qm"; "agent"; "100"; "get-fsinfo"]
  then None
  else sample_host "{}" (lsblk_text "sda") "sda" "{}" "[]" command.

(** An [lsblk] listing with a SATA disk, an optical drive and an NVMe
    disk. *)
Definition mixed_lsblk_text : string :=
  json_text "{'blockdevices': [{'name': 'sda', 'type': 'disk'}, {'name': 'sr0', 'type': 'rom'}, {'name': 'nvme0n1', 'type': 'disk'}]}".

(** The command is one of the [qm] commands. *)
Definition is_qm_command (command : list string) : bool :=
  match command with
  | program :: _ => String.eqb program "/usr/sbin/qm"
  | [] => false
  end.

(** The result is an exception. *)
Definition raises {A : Type} (r : outcome A) : Prop :=
  match r with
  | Ok _ => False
  | Raise _ => True
  end.

(** ** Dictionaries *)

Lemma dict_get_set_same (k : string) (v : value) (d : dict) :
  dict_get k (dict_set k v d) = Some v.
Proof.
  induction d as [|[k' v'] rest IH]; simpl.
  - now rewrite String.eqb_refl.
  - destruct (String.eqb k' k) eqn:E; simpl; rewrite E; auto.
Qed.



(** ** Text *)


Lemma append_assoc (a b c : string) : ((a ++ b) ++ c = a ++ (b ++ c))%string.
Proof.
  induction a as [|x a IH]; simpl; congruence.
Qed.



(** ** The NVMe extractor *)





Lemma startswith_app (p s : string) : startswith p (p ++ s) = true.
Proof.
  induction p as [|c p IH]; simpl; auto.
  now rewrite Ascii.eqb_refl.
Qed.

Lemma startswith_inv (p s : string) :
  startswith p s = true -> s = (p ++ drop (String.length p) s)%string.
Proof.
  revert s. induction p as [|c p IH]; intros s H; simpl in *.
  - now destruct s.
  - destruct s as [|a s]; try discriminate.
    apply andb_true_iff in H as [H1 H2].
    apply Ascii.eqb_eq in H1. subst a. simpl. f_equal. auto.
Qed.

Lemma drop_app (p s : string) : drop (String.length p) (p ++ s) = s.
Proof.
  induction p as [|c p IH]; simpl; auto.
Qed.

Lemma length_app (a b : string) :
  String.length (a ++ b) = (String.length a + String.length b)%nat.
Proof.
  induction a as [|c a IH]; simpl; auto.
Qed.

(** ** The two regular expressions *)

Lemma span_digits_app (ds tl : string) :
  all_digits ds = true -> stops_digits tl = true ->
  span_digits (ds ++ tl) = (ds, tl).
Proof.
  intros Hd Ht. induction ds as [|c ds IH]; simpl in *.
  - destruct tl as [|a tl]; simpl in *; auto.
    apply negb_true_iff in Ht. now rewrite Ht.
  - apply andb_true_iff in Hd as [Hc Hd]. rewrite Hc. now rewrite IH.
Qed.

Lemma span_digits_spec (s ds tl : string) :
  span_digits s = (ds, tl) ->
  s = (ds ++ tl)%string /\ all_digits ds = true /\ stops_digits tl = true.
Proof.
  revert ds tl. induction s as [|c s IH]; intros ds tl H; simpl in H.
  - injection H as <- <-. auto.
  - destruct (is_digit c) eqn:Hc.
    + destruct (span_digits s) as [ds' tl'] eqn:E.
      injection H as <- <-.
      destruct (IH ds' tl' eq_refl) as (-> & Hd & Ht).
      unfold all_digits in *. simpl. rewrite Hc. auto.
    + injection H as <- <-. simpl. rewrite Hc. auto.
Qed.





Lemma re_search_digits_none (s : string) :
  no_digit s = true -> re_search_digits s = None.
Proof.
  intros H. induction s as [|c s IH]; simpl in *; auto.
  apply andb_true_iff in H as [Hc H]. apply negb_true_iff in Hc.
  rewrite Hc. auto.
Qed.

Lemma match_temp_head (ds tl : string) :
  ds <> EmptyString -> all_digits ds = true ->
  match_temp ("temp" ++ ds ++ "_" ++ tl)
  = Some (4 + String.length ds + 1)%nat.
Proof.
  intros Hne Hd. unfold match_temp.
  rewrite startswith_app.
  change (drop 4 ("temp" ++ ds ++ "_" ++ tl)) with (ds ++ "_" ++ tl)%string.
  rewrite span_digits_app by auto.
  destruct ds; [contradiction | reflexivity].
Qed.

Lemma match_temp_Some (s : string) (n : nat) :
  match_temp s = Some n ->
  exists ds tl, ds <> EmptyString /\ all_digits ds = true
                /\ s = ("temp" ++ ds ++ "_" ++ tl)%string
                /\ n = (4 + String.length ds + 1)%nat.
Proof.
  unfold match_temp. intros H.
  destruct (startswith "temp" s) eqn:Hs; try discriminate.
  apply startswith_inv in Hs. simpl String.length in Hs.
  destruct (span_digits (drop 4 s)) as [ds tl] eqn:E.
  apply span_digits_spec in E as (E & Hd & _).
  destruct ds as [|d ds]; try discriminate.
  destruct tl as [|u tl]; try discriminate.
  destruct (Ascii.eqb u "_") eqn:Hu.
  - apply Ascii.eqb_eq in Hu. subst u. injection H as <-.
    exists (String d ds), tl. repeat split; auto; try discriminate.
    rewrite Hs at 1. now rewrite E.
  - exfalso. revert H Hu. clear.
    destruct u as [[] [] [] [] [] [] [] []]; simpl; intros H Hu;
      first [discriminate H | discriminate Hu].
Qed.

Lemma match_temp_None (s : string) :
  match_temp s = None -> ~ temp_index_at_head s.
Proof.
  intros H (ds & tl & Hne & Hd & ->).
  rewrite match_temp_head in H by assumption. discriminate.
Qed.

Lemma re_sub_temp_from_cons (c : ascii) (rest : string) :
  re_sub_temp_from 0 (String c rest)
  = match match_temp (String c rest) with
    | Some n => ("temp_" ++ re_sub_temp_from (n - 1) rest)%string
    | None => String c (re_sub_temp_from 0 rest)
    end.
Proof. reflexivity. Qed.

Lemma re_sub_temp_from_drop (s : string) :
  forall n, re_sub_temp_from n s = re_sub_temp (drop n s).
Proof.
  induction s as [|c s IH]; intros [|n]; try reflexivity.
  simpl. apply IH.
Qed.

(** At a match the substitution emits [temp_] and goes on after it. *)
Lemma re_sub_temp_index (ds tl : string) :
  ds <> EmptyString -> all_digits ds = true ->
  re_sub_temp ("temp" ++ ds ++ "_" ++ tl) = ("temp_" ++ re_sub_temp tl)%string.
Proof.
  intros Hne Hd. unfold re_sub_temp.
  change ("temp" ++ ds ++ "_" ++ tl)%string
    with (String "t" ("emp" ++ ds ++ "_" ++ tl)).
  rewrite re_sub_temp_from_cons.
  change (String "t" ("emp" ++ ds ++ "_" ++ tl))
    with ("temp" ++ ds ++ "_" ++ tl)%string.
  rewrite match_temp_head by assumption.
  rewrite re_sub_temp_from_drop. do 2 f_equal.
  replace (4 + String.length ds + 1 - 1)%nat
    with (String.length ("emp" ++ ds ++ "_"))%nat.
  - rewrite <- (drop_app ("emp" ++ ds ++ "_") tl) at 2.
    now rewrite !append_assoc.
  - rewrite !length_app. simpl. lia.
Qed.

Lemma re_sub_temp_keep (c : ascii) (tl : string) :
  ~ temp_index_at_head (String c tl) ->
  re_sub_temp (String c tl) = String c (re_sub_temp tl).
Proof.
  intros H. unfold re_sub_temp. rewrite re_sub_temp_from_cons.
  destruct (match_temp (String c tl)) as [n|] eqn:E; auto.
  exfalso. apply H. apply match_temp_Some in E as (ds & r & ? & ? & ? & _).
  now exists ds, r.
Qed.




Lemma re_sub_temp_prefix (p r : string) :
  all_chars (fun c => negb (Ascii.eqb c "t")) p = true ->
  re_sub_temp (p ++ r) = (p ++ re_sub_temp r)%string.
Proof.
  intros H. induction p as [|c p IH]; simpl in *; auto.
  apply andb_true_iff in H as [Hc H].
  rewrite re_sub_temp_keep.
  - now rewrite IH.
  - intros (ds & tl & _ & _ & E). simpl in E. injection E as -> _.
    discriminate Hc.
Qed.

Lemma replace_keeps (p : ascii -> bool) (old new : ascii) (s : string) :
  p new = true -> all_chars p s = true -> all_chars p (replace old new s) = true.
Proof.
  intros Hn. induction s as [|c s IH]; simpl; auto.
  intros H. apply andb_true_iff in H as [Hc H].
  rewrite IH by assumption. now destruct (Ascii.eqb c old); rewrite ?Hn, ?Hc.
Qed.

Lemma all_chars_app (p : ascii -> bool) (a b : string) :
  all_chars p (a ++ b) = all_chars p a && all_chars p b.
Proof.
  induction a as [|c a IH]; simpl; auto.
  now rewrite IH, andb_assoc.
Qed.

(** ** The sensor normalizer *)



(** ** Rounding an integer to binary64 *)



























(** *** The float of an integer is unique *)










(** ** The SATA extractor *)

Lemma SFeqb_finite_eq (f : spec_float) (s : bool) (m : positive) (e : Z) :
  SFeqb f (S754_finite s m e) = true -> f = S754_finite s m e.
Proof.
  unfold SFeqb, SFcompare.
  destruct f as [s'|s'| |s' m' e']; destruct s; try destruct s';
    try discriminate.
  - destruct (Z.compare e' e) eqn:Ee; try discriminate.
    apply Z.compare_eq in Ee. subst e'.
    destruct (Pos.compare_cont Eq m' m) eqn:Em; try discriminate.
    apply Pos.compare_eq in Em. now subst.
  - destruct (Z.compare e' e) eqn:Ee; try discriminate.
    apply Z.compare_eq in Ee. subst e'.
    destruct (Pos.compare_cont Eq m' m) eqn:Em; try discriminate.
    apply Pos.compare_eq in Em. now subst.
Qed.

(** An id equal to 194 is not equal to 202. *)
Lemma temperature_id_not_lifetime (attribute_id : value) :
  py_eq_int attribute_id TEMPERATURE_CELSIUS_ID = true ->
  py_eq_int attribute_id PERCENT_LIFETIME_REMAIN_ID = false.
Proof.
  destruct attribute_id as [| b | z | f | s | l | d]; try discriminate.
  - now destruct b.
  - simpl. intros H. apply Z.eqb_eq in H. now subst z.
  - unfold py_eq_int. intros H.
    remember (binary_normalize prec emax TEMPERATURE_CELSIUS_ID 0 false) as t.
    vm_compute in Heqt. subst t.
    apply SFeqb_finite_eq in H. now subst f.
Qed.

Section SataRecord.

(** A well-formed attribute record: the keys the extractor reads are
    there, the name and the raw display string are strings. *)
Variables (stats : dict) (attribute attribute_id raw : value).
Variables (raw_value normalized_value : value) (name raw_string : string).
Hypothesis Hid : py_getitem attribute "id" = Ok attribute_id.
Hypothesis Hname : py_getitem attribute "name" = Ok (VStr name).
Hypothesis Hraw : py_getitem attribute "raw" = Ok raw.
Hypothesis Hraw_value : py_getitem raw "value" = Ok raw_value.
Hypothesis Hraw_string : py_getitem raw "string" = Ok (VStr raw_string).
Hypothesis Hvalue : py_getitem attribute "value" = Ok normalized_value.

Lemma sata_step_temperature :
  py_eq_int attribute_id TEMPERATURE_CELSIUS_ID = true ->
  sata_step stats attribute
  = Ok (dict_set (replace "-" "_" (lower name))
          match re_search_digits raw_string with
          | Some group1 => VFloat (float_of_digits group1)
          | None => raw_value
          end stats).
Proof.
  intros Htemp. unfold sata_step.
  rewrite Hid, Hname, Hraw. simpl. rewrite Hraw_value, Hraw_string, Hvalue.
  simpl. rewrite Htemp, (temperature_id_not_lifetime _ Htemp).
  now destruct (re_search_digits raw_string).
Qed.

End SataRecord.



(** C5, as the code has it.  A SATA attribute record with id 194 whose raw
    display string has no decimal digit does not raise: the attribute falls
    through to the last branch and its field holds the raw numeric
    value. *)
Theorem sata_temperature_without_digits_uses_raw
    (stats : dict) (attribute attribute_id raw : value)
    (raw_value normalized_value : value) (name raw_string : string) :
  py_getitem attribute "id" = Ok attribute_id ->
  py_getitem attribute "name" = Ok (VStr name) ->
  py_getitem attribute "raw" = Ok raw ->
  py_getitem raw "value" = Ok raw_value ->
  py_getitem raw "string" = Ok (VStr raw_string) ->
  py_getitem attribute "value" = Ok normalized_value ->
  py_eq_int attribute_id 194 = true ->
  no_digit raw_string = true ->
  sata_step stats attribute
  = Ok (dict_set (replace "-" "_" (lower name)) raw_value stats).
Proof.
  intros Hid Hname Hraw Hrv Hrs Hv Htemp Hno.
  rewrite (sata_step_temperature stats attribute attribute_id raw raw_value
             normalized_value name _ Hid Hname Hraw Hrv Hrs Hv Htemp).
  now rewrite re_search_digits_none.
Qed.

(** A temperature record whose display string is [n/a]. *)
Lemma sata_temperature_without_digits_uses_raw_witness :
  no_digit "n/a" = true
  /\ sata_step [] (temperature_record 35 "n/a")
     = Ok [("temperature_celsius", VInt 35)].
Proof.
  split; [reflexivity|].
  apply (sata_temperature_without_digits_uses_raw []
           _ (VInt 194) (VDict [("value", VInt 35); ("string", VStr "n/a")])
           (VInt 35) (VInt 59) "Temperature_Celsius" "n/a");
    reflexivity.
Defined.

(** C5, as the specification has it, fails: the record with id 194 and raw
    display string [n/a] is processed without an exception, and the disk's
    measurement carries the raw value 35 for the attribute. *)
Lemma sata_temperature_without_digits_does_not_raise :
  re_search_digits "n/a" = None
  /\ parse_sata_smartctl_data "pve" "sda"
       (sata_table [temperature_record 35 "n/a"])
     = Ok {| measurement := "smartctl.sda";
             tags := [("host", VStr "pve")];
             fields := [("temperature_celsius", VInt 35)] |}
  /\ (forall e, parse_sata_smartctl_data "pve" "sda"
                  (sata_table [temperature_record 35 "n/a"]) <> Raise e).
Proof.
  split; [reflexivity | split; [reflexivity | discriminate]].
Qed.

(** ** Numeric fields *)

Lemma returns_bind {A B : Type} (P : B -> Prop) (c : outcome A)
    (k : A -> outcome B) :
  (forall a, c = Ok a -> returns P (k a)) -> returns P (bind c k).
Proof.
  intros H. destruct c as [a|e]; simpl; auto.
Qed.














(** ** The doubled [temp1] *)

(** C2, as the code has it.  For a chip whose only grouping key besides
    [Adapter] is [temp1], holding the label [temp1_input], the one field
    key is [temp_input]: the label is not prefixed with the grouping key,
    and its index is stripped like any other. *)
Theorem temp1_group_field_key (host sensor : string) (adapter v : value) :
  field_key "temp1" "temp1_input" = "temp_input"
  /\ parse_sensors_data host
       (VDict [(sensor, VDict [("Adapter", adapter);
                               ("temp1", VDict [("temp1_input", v)])])])
     = Ok [{| measurement := "sensors." ++ split_first "-" sensor;
              tags := [("host", VStr host); ("adapter", adapter)];
              fields := [("temp_input", v)] |}]
  /\ parse_sensors_data host
       (VDict [(sensor, VDict [("temp1", VDict [("temp1_input", v)]);
                               ("Adapter", adapter)])])
     = Ok [{| measurement := "sensors." ++ split_first "-" sensor;
              tags := [("host", VStr host); ("adapter", adapter)];
              fields := [("temp_input", v)] |}].
Proof.
  split; [reflexivity | split; reflexivity].
Qed.

(** C2, as the specification has it, fails: on the chip [acpitz-acpi-0] of
    the test suite the field key is [temp_input], not [temp1_input]. *)
Lemma temp1_input_is_stripped :
  parse_sensors_data "test_host"
    (one_reading "acpitz-acpi-0" "temp1" "temp1_input"
       (VStr "ACPI interface") (VFloat (decimal_to_float false 278 (-1))))
  = Ok [{| measurement := "sensors.acpitz";
           tags := [("host", VStr "test_host");
                    ("adapter", VStr "ACPI interface")];
           fields := [("temp_input",
                       VFloat (decimal_to_float false 278 (-1)))] |}]
  /\ field_key "temp1" "temp1_input" <> "temp1_input".
Proof.
  split; [reflexivity | discriminate].
Qed.

(** ** VM disks *)

(** C1, as the code has it.  For a VM whose filesystem-info list is empty
    [parse_vm_disk_data] returns the [system] measurement tagged with the
    VM's name and id, with the field [disk] at 0.0, and the orchestrator's
    loop appends it to the batch. *)
Theorem empty_fsinfo_gives_zero_disk
    (json_loads : string -> outcome value)
    (subprocess_run : list string -> option string)
    (host vm_id vm_name data : string) (measurements : list Measurement) :
  json_loads data = Ok (VList []) ->
  subprocess_run ["/usr/sbin/qm"; "agent"; vm_id; "get-fsinfo"] = Some data ->
  parse_vm_disk_data json_loads host vm_id vm_name data
  = Ok (vm_measurement_zero host vm_id vm_name)
  /\ vm_step json_loads subprocess_run host (vm_id, vm_name) measurements
     = Ok (measurements ++ [vm_measurement_zero host vm_id vm_name])%list
  /\ is_vm_measurement vm_name vm_id (vm_measurement_zero host vm_id vm_name)
     = true.
Proof.
  intros Hdata Hrun.
  assert (E : parse_vm_disk_data json_loads host vm_id vm_name data
              = Ok (vm_measurement_zero host vm_id vm_name)).
  { unfold parse_vm_disk_data. rewrite Hdata. reflexivity. }
  split; [exact E | split].
  - unfold vm_step, get_vm_disk_data, run_command. rewrite Hrun. simpl.
    now rewrite E.
  - unfold is_vm_measurement. simpl. now rewrite !String.eqb_refl.
Qed.

(** The empty JSON array, as the decoder reads it. *)
Lemma empty_fsinfo_gives_zero_disk_witness :
  json_decode "[]" = Ok (VList [])
  /\ parse_vm_disk_data json_decode "pve" "100" "vm_name" "[]"
     = Ok (vm_measurement_zero "pve" "100" "vm_name").
Proof.
  split; [reflexivity|].
  exact (proj1 (empty_fsinfo_gives_zero_disk json_decode
                  (sample_host "{}" (lsblk_text "sda") "sda" "{}" "[]")
                  "pve" "100" "vm_name" "[]" [] eq_refl eq_refl)).
Defined.

(** C1, as the specification has it, fails: on a host whose one running
    VM, 100 [vm_name], reports an empty filesystem list, the batch holds
    the [system] measurement of that VM. *)
Lemma empty_fsinfo_still_emits :
  json_decode "[]" = Ok (VList [])
  /\ collect_measurements json_decode
       (sample_host "{}" (json_text "{'blockdevices': []}") "sda" "{}" "[]")
       "pve" true
     = Ok [vm_measurement_zero "pve" "100" "vm_name"]
  /\ existsb (is_vm_measurement "vm_name" "100")
       [vm_measurement_zero "pve" "100" "vm_name"] = true.
Proof.
  split; [reflexivity | split; reflexivity].
Qed.

(** ** Malformed JSON *)

Lemma get_sensors_data_malformed
    (json_loads : string -> outcome value)
    (subprocess_run : list string -> option string) (stdout : string) :
  subprocess_run ["/usr/bin/sensors"; "-j"] = Some stdout ->
  json_loads stdout = Raise JSONDecodeError ->
  get_sensors_data json_loads subprocess_run = Ok (VDict []).
Proof.
  intros Hrun Hbad. unfold get_sensors_data, run_command.
  rewrite Hrun. simpl. now rewrite Hbad.
Qed.

Lemma get_smartctl_data_malformed
    (json_loads : string -> outcome value)
    (subprocess_run : list string -> option string) (disk stdout : string) :
  subprocess_run ["/usr/sbin/smartctl"; "-A"; "-j"; "/dev/" ++ disk]
  = Some stdout ->
  json_loads stdout = Raise JSONDecodeError ->
  get_smartctl_data json_loads subprocess_run disk = Ok (VDict []).
Proof.
  intros Hrun Hbad. unfold get_smartctl_data, run_command.
  rewrite Hrun. simpl. now rewrite Hbad.
Qed.

(** Nothing between [json.loads] and the orchestrator catches the error
    of a malformed filesystem listing. *)
Lemma parse_vm_disk_data_malformed
    (json_loads : string -> outcome value)
    (subprocess_run : list string -> option string)
    (host vm_id vm_name data : string)
    (rest : list (string * string)) (measurements : list Measurement) :
  json_loads data = Raise JSONDecodeError ->
  subprocess_run ["/usr/sbin/qm"; "agent"; vm_id; "get-fsinfo"] = Some data ->
  parse_vm_disk_data json_loads host vm_id vm_name data = Raise JSONDecodeError
  /\ vm_loop json_loads subprocess_run host ((vm_id, vm_name) :: rest)
       measurements = Raise JSONDecodeError.
Proof.
  intros Hbad Hrun.
  assert (E : parse_vm_disk_data json_loads host vm_id vm_name data
              = Raise JSONDecodeError)
    by (unfold parse_vm_disk_data; now rewrite Hbad).
  split; [exact E|].
  simpl. unfold get_vm_disk_data, run_command. rewrite Hrun. simpl.
  now rewrite E.
Qed.

(** C3.  On a host where every tool prints [invalid json], the sensor and
    the SMART readers give an empty mapping and the batch without VM data
    is the one empty SMART measurement; with VM data the
    [JSONDecodeError] of [parse_vm_disk_data] leaves
    [collect_measurements]. *)
Theorem malformed_fsinfo_reaches_orchestrator :
  json_decode "invalid json" = Raise JSONDecodeError
  /\ get_sensors_data json_decode garbled_host = Ok (VDict [])
  /\ get_smartctl_data json_decode garbled_host "sda" = Ok (VDict [])
  /\ collect_measurements json_decode garbled_host "pve" false
     = Ok [smart_measurement_empty "pve" "sda"]
  /\ parse_vm_disk_data json_decode "pve" "100" "vm_name" "invalid json"
     = Raise JSONDecodeError
  /\ collect_measurements json_decode garbled_host "pve" true
     = Raise JSONDecodeError.
Proof.
  repeat (split; [reflexivity|]). reflexivity.
Qed.

(** ** Disk names *)

Lemma take_all (s : string) (n : nat) :
  (String.length s <= n)%nat -> take n s = s.
Proof.
  revert n. induction s as [|c s IH]; intros [|n] H; simpl in *; auto; try lia.
  f_equal. apply IH. lia.
Qed.

Lemma slice_to_take (k : Z) (s : string) :
  0 <= k -> slice_to k s = take (Z.to_nat k) s.
Proof.
  intros Hk. unfold slice_to.
  destruct (k <? 0) eqn:E; [apply Z.ltb_lt in E; lia|].
  destruct (Z.le_gt_cases k (Z.of_nat (String.length s))) as [Hle|Hgt].
  - now rewrite Z.min_l.
  - rewrite Z.min_r by lia. rewrite Nat2Z.id.
    rewrite !take_all; auto. lia.
Qed.

(** [rfind] gives the last occurrence: after it the character does not
    occur again. *)
Lemma rfind_last (c : ascii) (s : string) :
  (rfind c s = -1 /\ all_chars (fun a => negb (Ascii.eqb a c)) s = true)
  \/ (0 <= rfind c s
      /\ exists suffix,
           s = (take (Z.to_nat (rfind c s)) s ++ String c suffix)%string
           /\ all_chars (fun a => negb (Ascii.eqb a c)) suffix = true).
Proof.
  induction s as [|a s IH]; simpl.
  - left. auto.
  - destruct IH as [[Hr Hall] | (Hr & suffix & Hs & Hall)].
    + rewrite Hr. simpl. destruct (Ascii.eqb a c) eqn:E.
      * right. split; [lia|]. exists s. simpl. split; auto.
        apply Ascii.eqb_eq in E. now subst.
      * left. simpl. auto.
    + right. destruct (0 <=? rfind c s) eqn:E; [|apply Z.leb_gt in E; lia].
      split; [lia|]. exists suffix. split; auto.
      replace (Z.to_nat (rfind c s + 1)) with (S (Z.to_nat (rfind c s))) by lia.
      simpl. now rewrite <- Hs.
Qed.

(** An NVMe disk name is cut at its last [n]. *)
Lemma disk_name_cuts_last_n (disk : string) :
  startswith "nvme" disk = true ->
  exists suffix,
    disk = (disk_name disk ++ "n" ++ suffix)%string
    /\ all_chars (fun a => negb (Ascii.eqb a "n")) suffix = true.
Proof.
  intros Hn. unfold disk_name. rewrite Hn.
  destruct (rfind_last "n" disk) as [[_ Hall] | (Hr & suffix & Hs & Hall)].
  - apply startswith_inv in Hn. rewrite Hn in Hall. discriminate Hall.
  - exists suffix. rewrite slice_to_take by assumption. auto.
Qed.

Lemma parse_smartctl_data_name (host disk : string) (data : value)
    (m : Measurement) :
  parse_smartctl_data host disk data = Ok m ->
  measurement m = ("smartctl." ++ disk)%string.
Proof.
  unfold parse_smartctl_data, parse_nvme_smartctl_data, parse_sata_smartctl_data.
  destruct (startswith "nvme" disk).
  - destruct (py_get data "nvme_smart_health_information_log" (VDict []))
      as [nvme_data|]; simpl; try discriminate.
    destruct (py_items nvme_data); simpl; try discriminate.
    now intros [= <-].
  - destruct (py_get data "ata_smart_attributes" (VDict []))
      as [attributes|]; simpl; try discriminate.
    destruct (py_get attributes "table" (VList [])) as [sata_data|];
      simpl; try discriminate.
    destruct (py_iter sata_data) as [table|]; simpl; try discriminate.
    destruct (sata_stats table []); simpl; try discriminate.
    now intros [= <-].
Qed.

Lemma smart_step_named
    (json_loads : string -> outcome value)
    (subprocess_run : list string -> option string)
    (host disk : string) (measurements : list Measurement) :
  returns (fun ms => exists m, ms = (measurements ++ [m])%list
                               /\ measurement m
                                  = ("smartctl." ++ disk_name disk)%string)
    (smart_step json_loads subprocess_run host (VStr disk) measurements).
Proof.
  unfold smart_step.
  apply returns_bind. intros data _.
  apply returns_bind. intros m Hm. simpl.
  exists m. split; [reflexivity|].
  now apply parse_smartctl_data_name in Hm.
Qed.

(** C9.  The orchestrator turns the enumerated disk [nvme0n1] into
    [nvme0]: [smartctl] is run on [/dev/nvme0], its output goes to the
    NVMe extractor under the name [nvme0], and the measurement appended is
    named [smartctl.nvme0].  A disk whose name does not start with [nvme]
    keeps its name, for the command and for the SATA extractor. *)
Theorem nvme_namespace_trimmed
    (json_loads : string -> outcome value)
    (subprocess_run : list string -> option string)
    (host : string) (measurements : list Measurement) :
  disk_name "nvme0n1" = "nvme0"
  /\ smart_step json_loads subprocess_run host (VStr "nvme0n1") measurements
     = (data <- get_smartctl_data json_loads subprocess_run "nvme0" ;;
        m <- parse_nvme_smartctl_data host "nvme0" data ;;
        Ok (measurements ++ [m])%list)
  /\ get_smartctl_data json_loads subprocess_run "nvme0"
     = (stdout <- run_command subprocess_run
                    ["/usr/sbin/smartctl"; "-A"; "-j"; "/dev/nvme0"] ;;
        match json_loads stdout with
        | Raise JSONDecodeError => Ok (VDict [])
        | parsed_data => parsed_data
        end)
  /\ returns (fun ms => exists m, ms = (measurements ++ [m])%list
                                  /\ measurement m = "smartctl.nvme0")
       (smart_step json_loads subprocess_run host (VStr "nvme0n1") measurements)
  /\ collect_measurements json_decode
       (sample_host "{}" (lsblk_text "nvme0n1") "nvme0" "{}" "[]")
       "test_host" false
     = Ok [smart_measurement_empty "test_host" "nvme0"]
  /\ (forall disk, startswith "nvme" disk = false ->
        disk_name disk = disk
        /\ smart_step json_loads subprocess_run host (VStr disk) measurements
           = (data <- get_smartctl_data json_loads subprocess_run disk ;;
              m <- parse_sata_smartctl_data host disk data ;;
              Ok (measurements ++ [m])%list)).
Proof.
  split; [reflexivity|].
  split; [reflexivity|].
  split; [reflexivity|].
  split; [exact (smart_step_named json_loads subprocess_run host "nvme0n1"
                   measurements)|].
  split; [reflexivity|].
  intros disk Hd. unfold smart_step, disk_name, parse_smartctl_data.
  rewrite Hd. cbv iota. rewrite Hd. split; reflexivity.
Qed.

(** The SATA disk [sda] keeps its name. *)
Lemma nvme_namespace_trimmed_witness :
  startswith "nvme" "sda" = false
  /\ disk_name "sda" = "sda"
  /\ smart_step json_decode
       (sample_host "{}" (lsblk_text "sda") "sda" "{}" "[]")
       "pve" (VStr "sda") []
     = Ok [smart_measurement_empty "pve" "sda"].
Proof.
  split; [reflexivity|].
  destruct (nvme_namespace_trimmed json_decode
              (sample_host "{}" (lsblk_text "sda") "sda" "{}" "[]") "pve" [])
    as (_ & _ & _ & _ & _ & Hother).
  destruct (Hother "sda" eq_refl) as [Hname Hstep].
  split; [exact Hname|].
  rewrite Hstep. reflexivity.
Defined.

(** C10.  An NVMe disk name is cut at the last [n] in it.  For a disk
    enumerated as [nvme0] that is its first character: the trimmed name is
    empty, [smartctl] is run on [/dev/], the SATA extractor gets the empty
    name and the measurement appended is named [smartctl.]. *)
Theorem nvme_controller_name_trimmed_to_empty
    (json_loads : string -> outcome value)
    (subprocess_run : list string -> option string)
    (host : string) (measurements : list Measurement) :
  (forall disk, startswith "nvme" disk = true ->
     exists suffix,
       disk = (disk_name disk ++ "n" ++ suffix)%string
       /\ all_chars (fun a => negb (Ascii.eqb a "n")) suffix = true)
  /\ rfind "n" "nvme0" = 0
  /\ disk_name "nvme0" = ""
  /\ smart_step json_loads subprocess_run host (VStr "nvme0") measurements
     = (data <- get_smartctl_data json_loads subprocess_run "" ;;
        m <- parse_sata_smartctl_data host "" data ;;
        Ok (measurements ++ [m])%list)
  /\ returns (fun ms => exists m, ms = (measurements ++ [m])%list
                                  /\ measurement m = "smartctl.")
       (smart_step json_loads subprocess_run host (VStr "nvme0") measurements)
  /\ collect_measurements json_decode
       (sample_host "{}" (lsblk_text "nvme0") "" "{}" "[]") "pve" false
     = Ok [smart_measurement_empty "pve" ""]
  /\ measurement (smart_measurement_empty "pve" "") = "smartctl.".
Proof.
  split; [exact disk_name_cuts_last_n|].
  split; [reflexivity|].
  split; [reflexivity|].
  split; [reflexivity|].
  split; [exact (smart_step_named json_loads subprocess_run host "nvme0"
                   measurements)|].
  split; reflexivity.
Qed.

(** [nvme0n1] is cut before its last [n]. *)
Lemma nvme_controller_name_trimmed_to_empty_witness :
  startswith "nvme" "nvme0n1" = true
  /\ exists suffix,
       "nvme0n1" = (disk_name "nvme0n1" ++ "n" ++ suffix)%string
       /\ all_chars (fun a => negb (Ascii.eqb a "n")) suffix = true.
Proof.
  split; [reflexivity|].
  exact (proj1 (nvme_controller_name_trimmed_to_empty json_decode
                  (sample_host "{}" (lsblk_text "nvme0") "" "{}" "[]") "pve" [])
           "nvme0n1" eq_refl).
Defined.

(** * Further properties *)

(** ** The substitution, once more *)

Lemma digit_not_t (c : ascii) : is_digit c = true -> Ascii.eqb c "t" = false.
Proof.
  intros H. destruct (Ascii.eqb c "t") eqn:E; auto.
  apply Ascii.eqb_eq in E. subst c. discriminate H.
Qed.

Lemma digits_no_t (ds : string) :
  all_digits ds = true ->
  all_chars (fun c => negb (Ascii.eqb c "t")) ds = true.
Proof.
  unfold all_digits. induction ds as [|c ds IH]; simpl; auto.
  intros H. apply andb_true_iff in H as [Hc H].
  now rewrite (digit_not_t c Hc), IH.
Qed.

(** The part of a match after its [t] has no [t]. *)
Lemma match_tail_no_t (ds : string) :
  all_digits ds = true ->
  all_chars (fun c => negb (Ascii.eqb c "t")) ("emp" ++ ds ++ "_") = true.
Proof.
  intros H. change ("emp" ++ ds ++ "_")%string
    with (String "e" (String "m" (String "p" (ds ++ "_")))).
  simpl. now rewrite all_chars_app, digits_no_t.
Qed.

(** A text that goes on with a [t] after [a] cannot share a [t]-free
    prefix longer than [a]. *)
Lemma t_free_prefix_within (m : string) :
  all_chars (fun c => negb (Ascii.eqb c "t")) m = true ->
  forall a q r, (a ++ String "t" q = m ++ r)%string ->
                exists r', a = (m ++ r')%string.
Proof.
  induction m as [|x m IH]; intros Hm a q r E; simpl in *.
  - now exists a.
  - apply andb_true_iff in Hm as [Hx Hm].
    destruct a as [|y a]; simpl in E.
    + injection E as <- _. discriminate Hx.
    + injection E as -> E. destruct (IH Hm a q r E) as [r' ->].
      now exists r'.
Qed.

(** What the substitution returns starts with a [t]-free text only if
    its argument does. *)
Lemma re_sub_temp_prefix_inv (m : string) :
  all_chars (fun c => negb (Ascii.eqb c "t")) m = true ->
  forall s r, re_sub_temp s = (m ++ r)%string ->
              exists r', s = (m ++ r')%string.
Proof.
  induction m as [|x m IH]; intros Hm s r E; simpl in *.
  - now exists s.
  - apply andb_true_iff in Hm as [Hx Hm].
    destruct s as [|c s]; [discriminate E|].
    destruct (match_temp (String c s)) as [n|] eqn:M.
    + apply match_temp_Some in M as (ds & tl & Hne & Hd & Hs & _).
      rewrite Hs, re_sub_temp_index in E by assumption.
      injection E as <- _. discriminate Hx.
    + apply match_temp_None in M. rewrite re_sub_temp_keep in E by assumption.
      injection E as -> E. destruct (IH Hm s r E) as [r' ->].
      now exists r'.
Qed.

Lemma temp_underscore_no_index (x : string) :
  ~ temp_index_at_head ("temp_" ++ x).
Proof.
  intros (ds & tl & Hne & Hd & E).
  destruct ds as [|d ds]; [contradiction|].
  simpl in E. injection E as <- _. discriminate Hd.
Qed.

Lemma re_sub_temp_idem_upto (n : nat) :
  forall s, (String.length s <= n)%nat ->
            re_sub_temp (re_sub_temp s) = re_sub_temp s.
Proof.
  induction n as [|n IH]; intros s Hlen.
  - destruct s; [reflexivity | simpl in Hlen; lia].
  - destruct s as [|c s]; [reflexivity|].
    destruct (match_temp (String c s)) as [m|] eqn:M.
    + apply match_temp_Some in M as (ds & tl & Hne & Hd & Hs & _).
      rewrite Hs, re_sub_temp_index by assumption.
      change ("temp_" ++ re_sub_temp tl)%string
        with (String "t" ("emp_" ++ re_sub_temp tl)).
      rewrite re_sub_temp_keep by apply temp_underscore_no_index.
      rewrite re_sub_temp_prefix by reflexivity.
      rewrite IH; auto.
      apply (f_equal String.length) in Hs. simpl in Hs, Hlen.
      rewrite !length_app in Hs. simpl in Hs. lia.
    + apply match_temp_None in M.
      rewrite re_sub_temp_keep by assumption.
      rewrite re_sub_temp_keep.
      * rewrite IH; auto. simpl in Hlen. lia.
      * intros (ds & tl & Hne & Hd & E). apply M.
        simpl in E. injection E as -> E.
        assert (A : forall r, (("emp" ++ ds ++ "_") ++ r)%string
                              = String "e" (String "m" (String "p"
                                  (ds ++ String "_" r))))
          by (intros r; simpl; now rewrite append_assoc).
        rewrite <- A in E.
        destruct (re_sub_temp_prefix_inv _ (match_tail_no_t ds Hd) s tl E)
          as [r' ->].
        exists ds, r'. repeat split; auto.
        now rewrite A.
Qed.

Lemma re_sub_temp_idem (s : string) :
  re_sub_temp (re_sub_temp s) = re_sub_temp s.
Proof. exact (re_sub_temp_idem_upto (String.length s) s (le_n _)). Qed.

(** X1. Stripping the index is idempotent: a text that went through the
    substitution is left as it is by a second one, and so is every field
    key [parse_sensors_data] composes. *)
Theorem re_sub_temp_idempotent (s key field : string) :
  re_sub_temp (re_sub_temp s) = re_sub_temp s
  /\ re_sub_temp (field_key key field) = field_key key field.
Proof.
  split; [apply re_sub_temp_idem|].
  unfold field_key. apply re_sub_temp_idem.
Qed.

(** The substitution works on the two sides of a [t] separately: no match
    begins before the [t] and ends after it. *)
Lemma re_sub_temp_app_t_upto (n : nat) (q : string) :
  forall p, (String.length p <= n)%nat ->
            re_sub_temp (p ++ String "t" q)
            = (re_sub_temp p ++ re_sub_temp (String "t" q))%string.
Proof.
  induction n as [|n IH]; intros p Hlen.
  - destruct p; [reflexivity | simpl in Hlen; lia].
  - destruct p as [|c p]; [reflexivity|].
    destruct (match_temp (String c p)) as [m|] eqn:M.
    + apply match_temp_Some in M as (ds & tl & Hne & Hd & Hs & _).
      rewrite Hs.
      replace (("temp" ++ ds ++ "_" ++ tl) ++ String "t" q)%string
        with ("temp" ++ ds ++ "_" ++ (tl ++ String "t" q))%string
        by (simpl; now rewrite !append_assoc).
      rewrite !re_sub_temp_index by assumption.
      rewrite IH.
      * reflexivity.
      * apply (f_equal String.length) in Hs. simpl in Hs, Hlen.
        rewrite !length_app in Hs. simpl in Hs. lia.
    + apply match_temp_None in M.
      change (String c p ++ String "t" q)%string
        with (String c (p ++ String "t" q)).
      rewrite (re_sub_temp_keep c p) by assumption.
      rewrite re_sub_temp_keep.
      * rewrite IH by (simpl in Hlen; lia). reflexivity.
      * intros (ds & tl & Hne & Hd & E). apply M.
        simpl in E. injection E as -> E.
        assert (A : forall r, (("emp" ++ ds ++ "_") ++ r)%string
                              = String "e" (String "m" (String "p"
                                  (ds ++ String "_" r))))
          by (intros r; simpl; now rewrite append_assoc).
        rewrite <- A in E.
        destruct (t_free_prefix_within _ (match_tail_no_t ds Hd) p q tl E)
          as [r' ->].
        exists ds, r'. repeat split; auto.
        now rewrite A.
Qed.

Lemma re_sub_temp_app_t (p q : string) :
  re_sub_temp (p ++ String "t" q)
  = (re_sub_temp p ++ re_sub_temp (String "t" q))%string.
Proof. exact (re_sub_temp_app_t_upto (String.length p) q p (le_n _)). Qed.

Lemma lower_app (a b : string) : lower (a ++ b) = (lower a ++ lower b)%string.
Proof.
  induction a as [|c a IH]; simpl; congruence.
Qed.

Lemma lower_char_digit (c : ascii) : is_digit c = true -> lower_char c = c.
Proof.
  destruct c as [[] [] [] [] [] [] [] []]; intros H;
    first [discriminate H | reflexivity].
Qed.

Lemma lower_digits (ds : string) : all_digits ds = true -> lower ds = ds.
Proof.
  unfold all_digits. induction ds as [|c ds IH]; simpl; auto.
  intros H. apply andb_true_iff in H as [Hc H].
  now rewrite (lower_char_digit c Hc), IH.
Qed.

(** The key of an indexed label does not depend on the index. *)
Lemma field_key_indexed (key ds x : string) :
  key <> "temp1" -> ds <> EmptyString -> all_digits ds = true ->
  field_key key ("temp" ++ ds ++ "_" ++ x)
  = (re_sub_temp (replace " " "_" (lower key) ++ "_") ++ "temp_"
     ++ re_sub_temp (lower x))%string.
Proof.
  intros Hkey Hne Hd. unfold field_key.
  destruct (String.eqb key "temp1") eqn:E;
    [apply String.eqb_eq in E; contradiction|].
  simpl andb. cbv iota.
  rewrite !lower_app, (lower_digits ds Hd).
  change (lower "temp") with "temp". change (lower "_") with "_".
  rewrite <- (append_assoc _ "_").
  change ("temp" ++ ds ++ "_" ++ lower x)%string
    with (String "t" ("emp" ++ ds ++ "_" ++ lower x)).
  rewrite re_sub_temp_app_t.
  change (String "t" ("emp" ++ ds ++ "_" ++ lower x))
    with ("temp" ++ ds ++ "_" ++ lower x)%string.
  now rewrite re_sub_temp_index.
Qed.

(** X2. Inside one group other than [temp1], two labels that differ only
    in the index after [temp] get the same field key, and the reading
    stored last is the one the fields keep. *)
Theorem indexed_labels_share_a_key
    (key ds1 ds2 x : string) (v1 v2 : value) (fields : dict) :
  key <> "temp1" ->
  ds1 <> EmptyString -> all_digits ds1 = true ->
  ds2 <> EmptyString -> all_digits ds2 = true ->
  field_key key ("temp" ++ ds1 ++ "_" ++ x)
  = field_key key ("temp" ++ ds2 ++ "_" ++ x)
  /\ dict_get (field_key key ("temp" ++ ds1 ++ "_" ++ x))
       (group_fields key [("temp" ++ ds1 ++ "_" ++ x, v1);
                          ("temp" ++ ds2 ++ "_" ++ x, v2)] fields)
     = Some v2.
Proof.
  intros Hkey Hne1 Hd1 Hne2 Hd2.
  assert (E : field_key key ("temp" ++ ds1 ++ "_" ++ x)
              = field_key key ("temp" ++ ds2 ++ "_" ++ x))
    by (now rewrite !field_key_indexed).
  split; [exact E|].
  cbn [group_fields]. rewrite E. apply dict_get_set_same.
Qed.

(** The labels [temp2_input] and [temp3_input] of one group. *)
Lemma indexed_labels_share_a_key_witness :
  "Core 0" <> "temp1" /\ all_digits "2" = true /\ all_digits "3" = true
  /\ dict_get "core_0_temp_input"
       (group_fields "Core 0"
          [("temp2_input", VInt 37); ("temp3_input", VInt 39)] [])
     = Some (VInt 39).
Proof.
  assert (H : "Core 0" <> "temp1") by discriminate.
  split; [exact H | split; [reflexivity | split; [reflexivity|]]].
  refine (proj2 (indexed_labels_share_a_key "Core 0" "2" "3" "input"
                   (VInt 37) (VInt 39) [] H _ eq_refl _ eq_refl));
    discriminate.
Defined.

(** ** Field keys *)

Lemma lower_char_fixed (c : ascii) : lower_fixed (lower_char c) = true.
Proof.
  destruct c as [[] [] [] [] [] [] [] []]; reflexivity.
Qed.

Lemma lower_case_lower (s : string) : lower_case (lower s) = true.
Proof.
  unfold lower_case. induction s as [|c s IH]; simpl; auto.
  now rewrite lower_char_fixed, IH.
Qed.

Lemma re_sub_temp_all_chars_upto (p : ascii -> bool) (n : nat) :
  all_chars p "temp_" = true ->
  forall s, (String.length s <= n)%nat -> all_chars p s = true ->
            all_chars p (re_sub_temp s) = true.
Proof.
  intros Hp. induction n as [|n IH]; intros s Hlen Hs.
  - destruct s; [reflexivity | simpl in Hlen; lia].
  - destruct s as [|c s]; [reflexivity|].
    destruct (match_temp (String c s)) as [m|] eqn:M.
    + apply match_temp_Some in M as (ds & tl & Hne & Hd & E & _).
      rewrite E in Hs |- *. rewrite re_sub_temp_index by assumption.
      rewrite all_chars_app, Hp. simpl.
      apply IH.
      * apply (f_equal String.length) in E. simpl in E, Hlen.
        rewrite !length_app in E. simpl in E. lia.
      * rewrite !all_chars_app in Hs.
        now repeat (apply andb_true_iff in Hs as [_ Hs]).
    + apply match_temp_None in M. rewrite re_sub_temp_keep by assumption.
      simpl in Hs |- *. apply andb_true_iff in Hs as [Hc Hs].
      rewrite Hc. simpl. apply IH; auto. simpl in Hlen. lia.
Qed.

(** The substitution brings in no character beyond those of [temp_]. *)
Lemma re_sub_temp_all_chars (p : ascii -> bool) (s : string) :
  all_chars p "temp_" = true -> all_chars p s = true ->
  all_chars p (re_sub_temp s) = true.
Proof.
  intros Hp. now apply (re_sub_temp_all_chars_upto p (String.length s)).
Qed.

Lemma field_key_lower_case (key field : string) :
  lower_case (field_key key field) = true.
Proof.
  unfold field_key, lower_case. apply re_sub_temp_all_chars; [reflexivity|].
  destruct (String.eqb key "temp1" && contains "temp1" (lower field)).
  - apply lower_case_lower.
  - rewrite !all_chars_app. rewrite replace_keeps; try reflexivity.
    + simpl. apply lower_case_lower.
    + apply lower_case_lower.
Qed.

Lemma keys_dict_set (P : string -> Prop) (k : string) (v : value) (d : dict) :
  P k -> Forall P (keys d) -> Forall P (keys (dict_set k v d)).
Proof.
  intros Hk. unfold keys.
  induction d as [|[k' v'] rest IH]; simpl; intros Hd.
  - auto.
  - inversion Hd as [|? ? H1 H2]; subst.
    destruct (String.eqb k' k); simpl; auto.
Qed.

Lemma group_fields_keys (P : string -> Prop) (key : string)
    (items : list (string * value)) :
  (forall field, P (field_key key field)) ->
  forall fields, Forall P (keys fields) ->
                 Forall P (keys (group_fields key items fields)).
Proof.
  intros HP. induction items as [|[field v] rest IH]; intros fields Hf;
    simpl; auto.
  apply IH. now apply keys_dict_set.
Qed.

Lemma chip_fields_keys (P : string -> Prop)
    (groups : list (string * value)) :
  (forall key field, P (field_key key field)) ->
  forall fields, Forall P (keys fields) ->
                 returns (fun fs => Forall P (keys fs)) (chip_fields groups fields).
Proof.
  intros HP. induction groups as [|[key v] rest IH]; intros fields Hf;
    simpl; auto.
  destruct (String.eqb key "Adapter"); auto.
  destruct v; simpl; auto.
  apply IH. now apply group_fields_keys.
Qed.

Lemma parse_chips_all (P : Measurement -> Prop) (host : string)
    (chips : list (string * value)) :
  (forall sensor details, returns P (parse_chip host sensor details)) ->
  forall data, Forall P data ->
               returns (Forall P) (parse_chips host chips data).
Proof.
  intros HP. induction chips as [|[sensor details] rest IH]; intros data Hd;
    simpl; auto.
  pose proof (HP sensor details) as R.
  destruct (parse_chip host sensor details) as [m|e]; simpl in *; auto.
  apply IH. apply Forall_app. auto.
Qed.

(** X3. Every field key of every measurement [parse_sensors_data] returns
    is in lower case: [str.lower] leaves it as it is. *)
Theorem sensor_field_keys_lower_case (host : string) (sensors_data : value) :
  returns (Forall (fun m => Forall (fun k => lower k = k) (keys (fields m))))
    (parse_sensors_data host sensors_data).
Proof.
  assert (L : forall s, lower_case s = true -> lower s = s).
  { unfold lower_case, lower_fixed. induction s as [|c s IH]; simpl; auto.
    intros H. apply andb_true_iff in H as [Hc H].
    apply Ascii.eqb_eq in Hc. now rewrite Hc, IH. }
  unfold parse_sensors_data. destruct sensors_data; simpl; auto.
  apply parse_chips_all; auto.
  intros sensor details. unfold parse_chip.
  apply returns_bind. intros adapter _.
  apply returns_bind. intros groups _.
  pose proof (chip_fields_keys (fun k => lower k = k) groups
                (fun key field => L _ (field_key_lower_case key field))
                [] (Forall_nil _)) as R.
  destruct (chip_fields groups []); simpl in *; auto.
Qed.

(** ** One measurement per chip *)

Lemma parse_chips_names (host : string) (chips : list (string * value)) :
  forall data,
    returns (fun ms =>
               map measurement ms
               = (map measurement data
                  ++ map (fun kv => "sensors." ++ split_first "-" (fst kv))%string
                       chips)%list
               /\ (Forall (fun m => dict_get "host" (tags m) = Some (VStr host))
                     data ->
                   Forall (fun m => dict_get "host" (tags m) = Some (VStr host))
                     ms))
      (parse_chips host chips data).
Proof.
  induction chips as [|[sensor details] rest IH]; intros data; simpl.
  - rewrite app_nil_r. auto.
  - destruct (parse_chip host sensor details) as [m|e] eqn:E; simpl; auto.
    specialize (IH (data ++ [m])%list).
    destruct (parse_chips host rest (data ++ [m])) as [ms|]; simpl in *; auto.
    destruct IH as [IH1 IH2].
    unfold parse_chip in E.
    destruct (py_getitem details "Adapter"); simpl in E; try discriminate.
    destruct (py_items details) as [groups|]; simpl in E; try discriminate.
    destruct (chip_fields groups []); simpl in E; try discriminate.
    injection E as <-. split.
    + rewrite IH1, map_app, <- app_assoc. reflexivity.
    + intros Hd. apply IH2. apply Forall_app. split; auto.
Qed.

(** X4. When [parse_sensors_data] returns, it returns one measurement per
    chip, in the order of the chips, each named [sensors.] followed by the
    chip identifier up to its first hyphen and each tagged with the
    host. *)
Theorem one_measurement_per_chip (host : string)
    (chips : list (string * value)) :
  returns (fun ms =>
             map measurement ms
             = map (fun kv => "sensors." ++ split_first "-" (fst kv))%string
                 chips
             /\ Forall (fun m => dict_get "host" (tags m) = Some (VStr host)) ms)
    (parse_sensors_data host (VDict chips)).
Proof.
  unfold parse_sensors_data. simpl.
  pose proof (parse_chips_names host chips []) as R.
  destruct (parse_chips host chips []); simpl in *; auto.
  destruct R as [R1 R2]. split; auto.
Qed.

Lemma parse_chips_raises (host sensor : string) (details : value)
    (chips : list (string * value)) :
  In (sensor, details) chips ->
  raises (parse_chip host sensor details) ->
  forall data, raises (parse_chips host chips data).
Proof.
  intros Hin Hraise.
  induction chips as [|[sensor' details'] rest IH]; intros data;
    [contradiction|].
  simpl. destruct Hin as [E|Hin].
  - injection E as -> ->.
    destruct (parse_chip host sensor details); simpl in *;
      [contradiction | exact I].
  - destruct (parse_chip host sensor' details'); simpl; auto.
Qed.

(** X5. A chip without the key [Adapter] fails the whole call: whatever
    the other chips hold, [parse_sensors_data] raises and returns no
    measurement at all; when the chip is the first one the exception is
    the [KeyError] of the missing key. *)
Theorem chip_without_adapter_fails_all (host sensor : string)
    (details : list (string * value)) (chips : list (string * value)) :
  dict_get "Adapter" details = None ->
  (In (sensor, VDict details) chips ->
   raises (parse_sensors_data host (VDict chips)))
  /\ parse_sensors_data host (VDict ((sensor, VDict details) :: chips))
     = Raise KeyError.
Proof.
  intros Hmissing.
  assert (E : parse_chip host sensor (VDict details) = Raise KeyError)
    by (unfold parse_chip; simpl; now rewrite Hmissing).
  split.
  - intros Hin. unfold parse_sensors_data. simpl.
    apply (parse_chips_raises host sensor (VDict details)); auto.
    now rewrite E.
  - unfold parse_sensors_data. simpl. now rewrite E.
Qed.

(** A tree whose second chip has readings and no adapter. *)
Lemma chip_without_adapter_fails_all_witness :
  dict_get "Adapter" [("temp1", VDict [("temp1_input", VInt 46)])] = None
  /\ raises
       (parse_sensors_data "pve"
          (VDict [("acpitz-acpi-0",
                   VDict [("Adapter", VStr "ACPI interface");
                          ("temp1", VDict [("temp1_input", VInt 27)])]);
                  ("mt7921_phy0-pci-0400",
                   VDict [("temp1", VDict [("temp1_input", VInt 46)])])])).
Proof.
  split; [reflexivity|].
  apply (proj1 (chip_without_adapter_fails_all "pve" "mt7921_phy0-pci-0400"
                  [("temp1", VDict [("temp1_input", VInt 46)])] _ eq_refl)).
  right. left. reflexivity.
Defined.

(** ** SATA field keys and values *)

Lemma replace_removes (old new : ascii) (s : string) :
  Ascii.eqb new old = false ->
  all_chars (fun c => negb (Ascii.eqb c old)) (replace old new s) = true.
Proof.
  intros Hn. induction s as [|c s IH]; simpl; auto.
  rewrite IH. destruct (Ascii.eqb c old) eqn:E; [now rewrite Hn | now rewrite E].
Qed.

Lemma attribute_name_clean (name : value) (k : string) :
  attribute_name_of name = Ok k -> lower k = k /\ no_hyphen k = true.
Proof.
  destruct name; try discriminate. simpl. intros [= <-]. split.
  - assert (H : lower_case (replace "-" "_" (lower s)) = true)
      by (apply replace_keeps; [reflexivity | apply lower_case_lower]).
    revert H. generalize (replace "-" "_" (lower s)). clear.
    unfold lower_case, lower_fixed. induction s as [|c s IH]; simpl; auto.
    intros H. apply andb_true_iff in H as [Hc H].
    apply Ascii.eqb_eq in Hc. now rewrite Hc, IH.
  - now apply replace_removes.
Qed.

Lemma sata_step_keys (P : string -> Prop) (stats : dict) (attribute : value) :
  (forall name k, attribute_name_of name = Ok k -> P k) ->
  Forall P (keys stats) ->
  returns (fun s => Forall P (keys s)) (sata_step stats attribute).
Proof.
  intros HP Hs. unfold sata_step.
  apply returns_bind. intros attribute_id _.
  apply returns_bind. intros name _.
  apply returns_bind. intros attribute_name Hname.
  repeat (apply returns_bind; intros ? _).
  apply HP in Hname.
  destruct (py_eq_int attribute_id TEMPERATURE_CELSIUS_ID);
    [apply returns_bind; intros [group1|] _ |];
    simpl; try destruct (py_eq_int attribute_id PERCENT_LIFETIME_REMAIN_ID);
    now apply keys_dict_set.
Qed.

Lemma sata_stats_keys (P : string -> Prop) (table : list value) :
  (forall name k, attribute_name_of name = Ok k -> P k) ->
  forall stats, Forall P (keys stats) ->
                returns (fun s => Forall P (keys s)) (sata_stats table stats).
Proof.
  intros HP. induction table as [|attribute rest IH]; intros stats Hs;
    simpl; auto.
  pose proof (sata_step_keys P stats attribute HP Hs) as R.
  destruct (sata_step stats attribute); simpl in *; auto.
Qed.

(** X6. Every field key of a measurement the SATA extractor returns is in
    lower case and has no hyphen. *)
Theorem sata_field_keys_clean (host disk : string) (data : value) :
  returns (fun m => Forall (fun k => lower k = k /\ no_hyphen k = true)
                      (keys (fields m)))
    (parse_sata_smartctl_data host disk data).
Proof.
  unfold parse_sata_smartctl_data.
  apply returns_bind. intros attributes _.
  apply returns_bind. intros sata_data _.
  apply returns_bind. intros table _.
  pose proof (sata_stats_keys (fun k => lower k = k /\ no_hyphen k = true)
                table attribute_name_clean [] (Forall_nil _)) as R.
  destruct (sata_stats table []); simpl in *; auto.
Qed.

Lemma lifetime_id_not_temperature (attribute_id : value) :
  py_eq_int attribute_id PERCENT_LIFETIME_REMAIN_ID = true ->
  py_eq_int attribute_id TEMPERATURE_CELSIUS_ID = false.
Proof.
  intros H. destruct (py_eq_int attribute_id TEMPERATURE_CELSIUS_ID) eqn:E; auto.
  apply temperature_id_not_lifetime in E. congruence.
Qed.

(** X7. For a record with id 202 the SATA extractor stores the normalized
    [value], whatever the raw value and the raw display string are; for a
    record whose id is neither 194 nor 202 it stores the raw value, and the
    display string is not even required to be a string. *)
Theorem sata_value_by_id
    (stats : dict) (attribute attribute_id raw : value)
    (raw_value raw_string normalized_value : value) (name : string) :
  py_getitem attribute "id" = Ok attribute_id ->
  py_getitem attribute "name" = Ok (VStr name) ->
  py_getitem attribute "raw" = Ok raw ->
  py_getitem raw "value" = Ok raw_value ->
  py_getitem raw "string" = Ok raw_string ->
  py_getitem attribute "value" = Ok normalized_value ->
  (py_eq_int attribute_id 202 = true ->
   sata_step stats attribute
   = Ok (dict_set (replace "-" "_" (lower name)) normalized_value stats))
  /\ (py_eq_int attribute_id 194 = false ->
      py_eq_int attribute_id 202 = false ->
      sata_step stats attribute
      = Ok (dict_set (replace "-" "_" (lower name)) raw_value stats)).
Proof.
  intros Hid Hname Hraw Hrv Hrs Hv.
  unfold sata_step. rewrite Hid, Hname, Hraw. simpl. rewrite Hrv, Hrs, Hv. simpl.
  split.
  - intros H202.
    change (py_eq_int attribute_id PERCENT_LIFETIME_REMAIN_ID = true) in H202.
    now rewrite (lifetime_id_not_temperature _ H202), H202.
  - intros H194 H202.
    change (py_eq_int attribute_id TEMPERATURE_CELSIUS_ID = false) in H194.
    change (py_eq_int attribute_id PERCENT_LIFETIME_REMAIN_ID = false) in H202.
    now rewrite H194, H202.
Qed.

(** The lifetime record of the test suite: normalized 98, raw 2. *)
Lemma sata_value_by_id_witness :
  sata_step []
    (VDict [("id", VInt 202); ("name", VStr "Percent_Lifetime_Remain");
            ("value", VInt 98);
            ("raw", VDict [("value", VInt 2); ("string", VStr "2")])])
  = Ok [("percent_lifetime_remain", VInt 98)].
Proof.
  apply (proj1 (sata_value_by_id []
                  (VDict [("id", VInt 202);
                          ("name", VStr "Percent_Lifetime_Remain");
                          ("value", VInt 98);
                          ("raw", VDict [("value", VInt 2);
                                         ("string", VStr "2")])])
                  (VInt 202)
                  (VDict [("value", VInt 2); ("string", VStr "2")])
                  (VInt 2) (VStr "2") (VInt 98) "Percent_Lifetime_Remain"
                  eq_refl eq_refl eq_refl eq_refl eq_refl eq_refl)).
  reflexivity.
Defined.

(** ** The sum of the VM normalizer *)

Lemma fs_step_complete (a : Z) (fs : value) :
  fs_complete fs = true ->
  fs_step (NInt a) fs = Ok (NInt (a + root_used_bytes fs)).
Proof.
  unfold fs_complete, fs_step, root_used_bytes.
  destruct (py_getitem fs "name") as [name|]; try discriminate.
  destruct (py_getitem fs "mountpoint") as [mountpoint|]; try discriminate.
  destruct (py_getitem fs "used-bytes") as [[]|]; try discriminate.
  intros _. simpl.
  destruct (py_eq_str name "sda1"); simpl;
    [destruct (py_eq_str mountpoint "/"); simpl|];
    try reflexivity; now rewrite Z.add_0_r.
Qed.

Lemma fs_total_sum (fsinfo : list value) :
  forallb fs_complete fsinfo = true ->
  forall a, fs_total fsinfo (NInt a)
            = Ok (NInt (a + sum_root_used_bytes fsinfo)).
Proof.
  induction fsinfo as [|fs rest IH]; simpl; intros H a.
  - now rewrite Z.add_0_r.
  - apply andb_true_iff in H as [H1 H2].
    rewrite (fs_step_complete a fs H1). simpl. rewrite IH by assumption.
    now rewrite Z.add_assoc.
Qed.

(** X8. For a filesystem list whose records all have [name], [mountpoint]
    and an integer [used-bytes], the field [disk] is the float of the sum
    of [used-bytes] over the records named [sda1] and mounted on [/];
    records that do not match add nothing, and several matching records
    add up. *)
Theorem vm_disk_is_sum_of_root_usage
    (json_loads : string -> outcome value)
    (host vm_id vm_name data : string) (fsinfo : list value) :
  json_loads data = Ok (VList fsinfo) ->
  forallb fs_complete fsinfo = true ->
  parse_vm_disk_data json_loads host vm_id vm_name data
  = (disk <- int_to_float (sum_root_used_bytes fsinfo) ;;
     Ok {| measurement := "system";
           tags := [("host", VStr vm_name); ("nodename", VStr host);
                    ("object", VStr "qemu"); ("vmid", VStr vm_id)];
           fields := [("disk", VFloat disk)] |}).
Proof.
  intros Hdata Hall. unfold parse_vm_disk_data.
  rewrite Hdata. simpl. now rewrite fs_total_sum.
Qed.

(** The two filesystems of the test suite: the boot partition and the
    root with 2426138624 bytes used. *)
Lemma vm_disk_is_sum_of_root_usage_witness :
  json_decode test_fsinfo_text = Ok (VList test_fsinfo)
  /\ forallb fs_complete test_fsinfo = true
  /\ float_is_integer (S754_finite false 5087981467598848 (-21)) 2426138624
     = true
  /\ parse_vm_disk_data json_decode "test_host" "100" "vm_name"
       test_fsinfo_text
     = Ok {| measurement := "system";
             tags := [("host", VStr "vm_name"); ("nodename", VStr "test_host");
                      ("object", VStr "qemu"); ("vmid", VStr "100")];
             fields := [("disk",
                         VFloat (S754_finite false 5087981467598848 (-21)))] |}.
Proof.
  split; [reflexivity | split; [reflexivity | split; [reflexivity|]]].
  rewrite (vm_disk_is_sum_of_root_usage json_decode "test_host" "100" "vm_name"
             test_fsinfo_text test_fsinfo eq_refl eq_refl).
  reflexivity.
Defined.

(** ** Commands that fail, output that is malformed *)

Lemma raises_bind_l {A B : Type} (c : outcome A) (k : A -> outcome B) :
  raises c -> raises (bind c k).
Proof.
  destruct c; simpl; [intros [] | auto].
Qed.

Lemma raises_bind {A B : Type} (c : outcome A) (k : A -> outcome B) :
  (forall a, c = Ok a -> raises (k a)) -> raises (bind c k).
Proof.
  destruct c; simpl; [eauto | intros _; exact I].
Qed.

Lemma smart_loop_raises
    (json_loads : string -> outcome value)
    (subprocess_run : list string -> option string)
    (host : string) (disk : value) (disks : list value) :
  In disk disks ->
  (forall measurements,
      raises (smart_step json_loads subprocess_run host disk measurements)) ->
  forall measurements,
    raises (smart_loop json_loads subprocess_run host disks measurements).
Proof.
  intros Hin Hstep. induction disks as [|d rest IH]; intros measurements;
    [contradiction|].
  simpl. destruct Hin as [->|Hin].
  - apply raises_bind_l, Hstep.
  - apply raises_bind. intros ms _. now apply IH.
Qed.

Lemma vm_loop_raises
    (json_loads : string -> outcome value)
    (subprocess_run : list string -> option string)
    (host : string) (vm : string * string) (vms : list (string * string)) :
  In vm vms ->
  (forall measurements,
      raises (vm_step json_loads subprocess_run host vm measurements)) ->
  forall measurements,
    raises (vm_loop json_loads subprocess_run host vms measurements).
Proof.
  intros Hin Hstep. induction vms as [|v rest IH]; intros measurements;
    [contradiction|].
  simpl. destruct Hin as [->|Hin].
  - apply raises_bind_l, Hstep.
  - apply raises_bind. intros ms _. now apply IH.
Qed.

(** X9. When [smartctl] exits with an error for one enumerated disk, the
    step of that disk raises [SystemExit] and [collect_measurements]
    returns no batch: the measurements of the sensors and of the other
    disks are lost with it. *)
Theorem failing_smartctl_aborts_cycle
    (json_loads : string -> outcome value)
    (subprocess_run : list string -> option string)
    (host disk : string) (disks : list value) (vm_disk : bool)
    (measurements : list Measurement) :
  get_disks json_loads subprocess_run = Ok disks ->
  In (VStr disk) disks ->
  subprocess_run ["/usr/sbin/smartctl"; "-A"; "-j"; "/dev/" ++ disk_name disk]
  = None ->
  smart_step json_loads subprocess_run host (VStr disk) measurements
  = Raise SystemExit
  /\ raises (collect_measurements json_loads subprocess_run host vm_disk).
Proof.
  intros Hdisks Hin Hfail.
  assert (Hstep : forall ms,
             smart_step json_loads subprocess_run host (VStr disk) ms
             = Raise SystemExit).
  { intros ms. unfold smart_step, get_smartctl_data, run_command.
    now rewrite Hfail. }
  split; [apply Hstep|].
  unfold collect_measurements.
  apply raises_bind. intros sensors_data _.
  apply raises_bind. intros ms _.
  rewrite Hdisks. simpl.
  apply raises_bind_l.
  apply (smart_loop_raises json_loads subprocess_run host (VStr disk)); auto.
  intros ms'. now rewrite Hstep.
Qed.

(** A host whose one disk [sda] cannot be read by [smartctl]. *)
Lemma failing_smartctl_aborts_cycle_witness :
  get_disks json_decode (sample_host "{}" (lsblk_text "sda") "sdb" "{}" "[]")
  = Ok [VStr "sda"]
  /\ collect_measurements json_decode
       (sample_host "{}" (lsblk_text "sda") "sdb" "{}" "[]") "pve" false
     = Raise SystemExit.
Proof.
  split; [reflexivity|].
  pose proof (proj2 (failing_smartctl_aborts_cycle json_decode
                       (sample_host "{}" (lsblk_text "sda") "sdb" "{}" "[]")
                       "pve" "sda" [VStr "sda"] false []
                       eq_refl (or_introl eq_refl) eq_refl)) as H.
  destruct (collect_measurements json_decode
              (sample_host "{}" (lsblk_text "sda") "sdb" "{}" "[]") "pve" false)
    as [batch|e] eqn:E; [contradiction|].
  vm_compute in E. injection E as <-. reflexivity.
Defined.

(** X10. When the agent command of one running VM exits with an error (a
    VM that is shut down or has no agent), the step of that VM raises
    [SystemExit] and [collect_measurements] with VM data returns no
    batch. *)
Theorem failing_vm_agent_aborts_cycle
    (json_loads : string -> outcome value)
    (subprocess_run : list string -> option string)
    (host vm_id vm_name : string) (vms : list (string * string))
    (measurements : list Measurement) :
  get_vms subprocess_run = Ok vms ->
  In (vm_id, vm_name) vms ->
  subprocess_run ["/usr/sbin/qm"; "agent"; vm_id; "get-fsinfo"] = None ->
  vm_step json_loads subprocess_run host (vm_id, vm_name) measurements
  = Raise SystemExit
  /\ raises (collect_measurements json_loads subprocess_run host true).
Proof.
  intros Hvms Hin Hfail.
  assert (Hstep : forall ms,
             vm_step json_loads subprocess_run host (vm_id, vm_name) ms
             = Raise SystemExit).
  { intros ms. unfold vm_step, get_vm_disk_data, run_command.
    now rewrite Hfail. }
  split; [apply Hstep|].
  unfold collect_measurements.
  do 4 (apply raises_bind; intros ? _).
  rewrite Hvms. simpl.
  apply (vm_loop_raises json_loads subprocess_run host (vm_id, vm_name)); auto.
  intros ms'. now rewrite Hstep.
Qed.

(** X11. When [smartctl] prints malformed JSON for a disk, the step of
    that disk still appends a measurement: the one named after the trimmed
    disk name, tagged with the host, with no field. *)
Theorem malformed_smartctl_gives_empty_measurement
    (json_loads : string -> outcome value)
    (subprocess_run : list string -> option string)
    (host disk stdout : string) (measurements : list Measurement) :
  subprocess_run ["/usr/sbin/smartctl"; "-A"; "-j"; "/dev/" ++ disk_name disk]
  = Some stdout ->
  json_loads stdout = Raise JSONDecodeError ->
  smart_step json_loads subprocess_run host (VStr disk) measurements
  = Ok (measurements ++ [smart_measurement_empty host (disk_name disk)])%list.
Proof.
  intros Hrun Hbad. unfold smart_step.
  rewrite (get_smartctl_data_malformed json_loads subprocess_run
             (disk_name disk) stdout Hrun Hbad).
  simpl. unfold parse_smartctl_data.
  destruct (startswith "nvme" (disk_name disk)); reflexivity.
Qed.

(** The disk [nvme0n1] on a host where every tool prints [invalid json]. *)
Lemma malformed_smartctl_gives_empty_measurement_witness :
  json_decode "invalid json" = Raise JSONDecodeError
  /\ smart_step json_decode
       (sample_host "{}" (lsblk_text "nvme0n1") "nvme0" "invalid json" "[]")
       "pve" (VStr "nvme0n1") []
     = Ok [smart_measurement_empty "pve" "nvme0"].
Proof.
  split; [reflexivity|].
  exact (malformed_smartctl_gives_empty_measurement json_decode
           (sample_host "{}" (lsblk_text "nvme0n1") "nvme0" "invalid json" "[]")
           "pve" "nvme0n1" "invalid json" [] eq_refl eq_refl).
Defined.

(** X12. Malformed JSON from [lsblk] is fatal, unlike malformed JSON from
    [sensors] or [smartctl]: [get_disks] raises [SystemExit], and so does
    [collect_measurements] once the sensors have been read. *)
Theorem malformed_lsblk_is_fatal
    (json_loads : string -> outcome value)
    (subprocess_run : list string -> option string)
    (host stdout : string) (vm_disk : bool) :
  subprocess_run ["/usr/bin/lsblk"; "-J"; "-o"; "NAME,TYPE"] = Some stdout ->
  json_loads stdout = Raise JSONDecodeError ->
  get_disks json_loads subprocess_run = Raise SystemExit
  /\ raises (collect_measurements json_loads subprocess_run host vm_disk)
  /\ (forall sensors_data measurements,
         get_sensors_data json_loads subprocess_run = Ok sensors_data ->
         parse_sensors_data host sensors_data = Ok measurements ->
         collect_measurements json_loads subprocess_run host vm_disk
         = Raise SystemExit).
Proof.
  intros Hrun Hbad.
  assert (E : get_disks json_loads subprocess_run = Raise SystemExit)
    by (unfold get_disks, run_command; rewrite Hrun; simpl; now rewrite Hbad).
  split; [exact E | split].
  - unfold collect_measurements.
    do 2 (apply raises_bind; intros ? _). now rewrite E.
  - intros sensors_data measurements Hs Hp. unfold collect_measurements.
    rewrite Hs. simpl. rewrite Hp. simpl. now rewrite E.
Qed.

(** A host on which only [lsblk] prints [invalid json]. *)
Lemma malformed_lsblk_is_fatal_witness :
  json_decode "invalid json" = Raise JSONDecodeError
  /\ collect_measurements json_decode
       (sample_host "{}" "invalid json" "sda" "{}" "[]") "pve" false
     = Raise SystemExit.
Proof.
  split; [reflexivity|].
  exact (proj2 (proj2 (malformed_lsblk_is_fatal json_decode
                         (sample_host "{}" "invalid json" "sda" "{}" "[]")
                         "pve" "invalid json" false eq_refl eq_refl))
           (VDict []) [] eq_refl eq_refl).
Defined.

(** The one running VM of a host whose agent does not answer. *)
Lemma failing_vm_agent_aborts_cycle_witness :
  get_vms agentless_host = Ok [("100", "vm_name")]
  /\ collect_measurements json_decode agentless_host "pve" false
     = Ok [smart_measurement_empty "pve" "sda"]
  /\ collect_measurements json_decode agentless_host "pve" true
     = Raise SystemExit.
Proof.
  split; [reflexivity | split; [reflexivity|]].
  pose proof (proj2 (failing_vm_agent_aborts_cycle json_decode agentless_host
                       "pve" "100" "vm_name" [("100", "vm_name")] []
                       eq_refl (or_introl eq_refl) eq_refl)) as H.
  destruct (collect_measurements json_decode agentless_host "pve" true)
    as [batch|e] eqn:E; [contradiction|].
  vm_compute in E. injection E as <-. reflexivity.
Defined.

(** ** What the orchestrator runs and returns *)

Lemma smart_loop_ext
    (json_loads : string -> outcome value)
    (run1 run2 : list string -> option string) (host : string)
    (disks : list value) :
  (forall command, is_qm_command command = false -> run1 command = run2 command) ->
  forall measurements,
    smart_loop json_loads run1 host disks measurements
    = smart_loop json_loads run2 host disks measurements.
Proof.
  intros Hsame. induction disks as [|disk rest IH]; intros measurements;
    simpl; auto.
  assert (E : smart_step json_loads run1 host disk measurements
              = smart_step json_loads run2 host disk measurements).
  { destruct disk; try reflexivity.
    unfold smart_step, get_smartctl_data, run_command.
    now rewrite Hsame. }
  rewrite E. destruct (smart_step json_loads run2 host disk measurements);
    simpl; auto.
Qed.

(** X13. Without VM data the orchestrator runs no [qm] command: two hosts
    that answer alike to every other command give the same result,
    whatever their [qm] commands print or however they fail. *)
Theorem no_vm_disk_runs_no_qm
    (json_loads : string -> outcome value)
    (run1 run2 : list string -> option string) (host : string) :
  (forall command, is_qm_command command = false -> run1 command = run2 command) ->
  collect_measurements json_loads run1 host false
  = collect_measurements json_loads run2 host false.
Proof.
  intros Hsame. unfold collect_measurements.
  assert (Es : get_sensors_data json_loads run1 = get_sensors_data json_loads run2)
    by (unfold get_sensors_data, run_command; now rewrite Hsame).
  assert (Ed : get_disks json_loads run1 = get_disks json_loads run2)
    by (unfold get_disks, run_command; now rewrite Hsame).
  rewrite Es, Ed.
  destruct (get_sensors_data json_loads run2) as [sensors_data|]; simpl; auto.
  destruct (parse_sensors_data host sensors_data); simpl; auto.
  destruct (get_disks json_loads run2); simpl; auto.
  now rewrite (smart_loop_ext json_loads run1 run2 host _ Hsame).
Qed.

(** A host whose agent answers and one whose agent does not. *)
Lemma no_vm_disk_runs_no_qm_witness :
  collect_measurements json_decode
    (sample_host "{}" (lsblk_text "sda") "sda" "{}" "[]") "pve" false
  = collect_measurements json_decode agentless_host "pve" false.
Proof.
  apply no_vm_disk_runs_no_qm.
  intros command H. unfold agentless_host.
  destruct (command_eqb command ["/usr/sbin/qm"; "agent"; "100"; "get-fsinfo"])
    eqn:E; auto.
  destruct command as [|program rest]; [discriminate E|].
  simpl in E, H. apply andb_true_iff in E as [E _]. congruence.
Defined.





(** ** Enumeration *)

Lemma rfind_nvme (rest : string) :
  rfind "n" ("nvme" ++ rest)
  = if 0 <=? rfind "n" rest then rfind "n" rest + 4 else 0.
Proof.
  change ("nvme" ++ rest)%string
    with (String "n" (String "v" (String "m" (String "e" rest)))).
  cbn [rfind]. destruct (0 <=? rfind "n" rest) eqn:E.
  - apply Z.leb_le in E.
    repeat match goal with
           | |- context [0 <=? ?x] =>
               let H := fresh in
               destruct (0 <=? x) eqn:H; [|apply Z.leb_gt in H; lia]
           end.
    lia.
  - reflexivity.
Qed.

(** X15. Trimming an NVMe disk name makes it strictly shorter, and leaves
    either the empty name or a name that still starts with [nvme]: the
    NVMe extractor is used exactly when the name has another [n] after
    [nvme]. *)
Theorem trimmed_nvme_name (disk : string) :
  startswith "nvme" disk = true ->
  (String.length (disk_name disk) < String.length disk)%nat
  /\ (contains "n" (drop 4 disk) = false -> disk_name disk = EmptyString)
  /\ (contains "n" (drop 4 disk) = true ->
      startswith "nvme" (disk_name disk) = true).
Proof.
  intros Hn.
  assert (Hlen : (String.length (disk_name disk) < String.length disk)%nat).
  { destruct (disk_name_cuts_last_n disk Hn) as (suffix & E & _).
    apply (f_equal String.length) in E. rewrite !length_app in E.
    simpl in E. lia. }
  split; [exact Hlen|].
  pose proof (startswith_inv _ _ Hn) as E. simpl String.length in E.
  unfold disk_name. rewrite Hn.
  generalize dependent (drop 4 disk). intros rest E. subst disk.
  rewrite rfind_nvme. clear Hn Hlen.
  assert (C : forall s, contains "n" s = (0 <=? rfind "n" s)).
  { induction s as [|c s IH]; [reflexivity|].
    cbn [rfind contains startswith]. rewrite IH.
    destruct (0 <=? rfind "n" s) eqn:R.
    - rewrite orb_true_r. symmetry. apply Z.leb_le.
      apply Z.leb_le in R. lia.
    - rewrite orb_false_r. destruct c as [[] [] [] [] [] [] [] []];
        reflexivity. }
  rewrite <- C. split; intros Hc; rewrite Hc.
  - reflexivity.
  - rewrite C in Hc. apply Z.leb_le in Hc.
    rewrite slice_to_take by lia.
    replace (Z.to_nat (rfind "n" rest + 4))
      with (4 + Z.to_nat (rfind "n" rest))%nat by lia.
    reflexivity.
Qed.

(** [nvme0n1] has a second [n], [nvme0] has none. *)
Lemma trimmed_nvme_name_witness :
  startswith "nvme" "nvme0n1" = true
  /\ contains "n" (drop 4 "nvme0n1") = true
  /\ startswith "nvme" (disk_name "nvme0n1") = true
  /\ contains "n" (drop 4 "nvme0") = false
  /\ disk_name "nvme0" = "".
Proof.
  split; [reflexivity | split; [reflexivity | split]].
  - exact (proj2 (proj2 (trimmed_nvme_name "nvme0n1" eq_refl)) eq_refl).
  - split; [reflexivity|].
    exact (proj1 (proj2 (trimmed_nvme_name "nvme0" eq_refl)) eq_refl).
Defined.

Lemma split_ws_from_tokens (s : string) :
  forall word,
    no_space word = true ->
    Forall (fun w => w <> EmptyString /\ no_space w = true)
      (split_ws_from word s).
Proof.
  unfold no_space. induction s as [|c s IH]; intros word Hw; simpl.
  - destruct word; auto. constructor; auto. split; auto. discriminate.
  - destruct (isspace c) eqn:Hc.
    + destruct word.
      * now apply IH.
      * constructor; [split; [discriminate | assumption] | now apply IH].
    + apply IH. rewrite all_chars_app, Hw. simpl. now rewrite Hc.
Qed.

Lemma running_vms_tokens (vm_list : list string) :
  returns (Forall (fun vm =>
                     fst vm <> EmptyString /\ no_space (fst vm) = true
                     /\ snd vm <> EmptyString /\ no_space (snd vm) = true))
    (running_vms vm_list).
Proof.
  induction vm_list as [|vm_info rest IH]; simpl; auto.
  destruct (contains "running" vm_info); auto.
  pose proof (split_ws_from_tokens vm_info EmptyString eq_refl) as T.
  fold (split_ws vm_info) in T.
  destruct (split_ws vm_info) as [|vm_id [|vm_name more]]; simpl; auto.
  destruct (running_vms rest) as [vms|]; simpl in *; auto.
  inversion T as [|? ? [H1 H2] T']; subst.
  inversion T' as [|? ? [H3 H4] _]; subst.
  constructor; auto.
Qed.

(** X16. The VM ids and names [get_vms] returns are non-empty and hold no
    white space, whatever [qm list] prints. *)
Theorem vm_ids_are_tokens (subprocess_run : list string -> option string) :
  returns (Forall (fun vm =>
                     fst vm <> EmptyString /\ no_space (fst vm) = true
                     /\ snd vm <> EmptyString /\ no_space (snd vm) = true))
    (get_vms subprocess_run).
Proof.
  unfold get_vms. apply returns_bind. intros result _.
  apply running_vms_tokens.
Qed.

Lemma disk_names_filter (devices : list value) :
  forallb device_complete devices = true ->
  disk_names devices
  = Ok (map device_name (filter device_is_disk devices)).
Proof.
  induction devices as [|device rest IH]; simpl; auto.
  intros H. apply andb_true_iff in H as [Hd H].
  unfold device_complete in Hd. unfold device_is_disk at 1, device_name at 1.
  destruct (py_getitem device "type") as [type|]; try discriminate.
  destruct (py_getitem device "name") as [name|] eqn:En; try discriminate.
  simpl. rewrite (IH H).
  destruct (py_eq_str type "disk"); simpl; auto.
  unfold device_name. now rewrite En.
Qed.

(** X17. When every block device of [lsblk] has a [type] and a [name],
    [get_disks] returns the names of the devices of type [disk], in the
    order of the listing, and nothing of the others. *)
Theorem get_disks_filters_by_type
    (json_loads : string -> outcome value)
    (subprocess_run : list string -> option string)
    (stdout : string) (result : value) (devices : list value) :
  subprocess_run ["/usr/bin/lsblk"; "-J"; "-o"; "NAME,TYPE"] = Some stdout ->
  json_loads stdout = Ok result ->
  py_getitem result "blockdevices" = Ok (VList devices) ->
  forallb device_complete devices = true ->
  get_disks json_loads subprocess_run
  = Ok (map device_name (filter device_is_disk devices)).
Proof.
  intros Hrun Hjson Hdev Hall. unfold get_disks, run_command.
  rewrite Hrun. simpl. rewrite Hjson, Hdev. simpl.
  now apply disk_names_filter.
Qed.

(** A listing with two disks and an optical drive between them. *)
Lemma get_disks_filters_by_type_witness :
  get_disks json_decode (sample_host "{}" mixed_lsblk_text "sda" "{}" "[]")
  = Ok [VStr "sda"; VStr "nvme0n1"].
Proof.
  exact (get_disks_filters_by_type json_decode
           (sample_host "{}" mixed_lsblk_text "sda" "{}" "[]")
           mixed_lsblk_text
           (VDict [("blockdevices",
                    VList [VDict [("name", VStr "sda"); ("type", VStr "disk")];
                           VDict [("name", VStr "sr0"); ("type", VStr "rom")];
                           VDict [("name", VStr "nvme0n1");
                                  ("type", VStr "disk")]])])
           [VDict [("name", VStr "sda"); ("type", VStr "disk")];
            VDict [("name", VStr "sr0"); ("type", VStr "rom")];
            VDict [("name", VStr "nvme0n1"); ("type", VStr "disk")]]
           eq_refl eq_refl eq_refl eq_refl).
Defined.
